(** * tinder_scrap: the collector loop of [tinder_scrap.py]

    A shallow embedding of [TinderScraper]: the Python values that come
    out of [response.json()], the dynamically typed operations the
    program applies to them, [calculate_age],
    [extract_users_from_response], [save_users_to_csv],
    [make_recs_request] and [run_continuous_scraping], followed by the
    properties of the collector loop. *)

From Stdlib Require Import ZArith List String Ascii Bool Lia.
Import ListNotations.

Open Scope string_scope.
Open Scope Z_scope.

Set Warnings "-register-all".

(** ** Python values and exceptions *)

Module Py.

(** The exceptions the program can meet. *)
Inductive exn : Type :=
| TypeError
| AttributeError
| KeyError
| ValueError
| KeyboardInterrupt.

(** An expression either evaluates to a value or raises. *)
Inductive result (A : Type) : Type :=
| Ok (a : A)
| Raise (e : exn).

Arguments Ok {A} a.
Arguments Raise {A} e.

Definition bind {A B : Type} (m : result A) (k : A -> result B) : result B :=
  match m with
  | Ok a => k a
  | Raise e => Raise e
  end.

(** What [json.loads] builds, plus the strings the program makes itself.
    A dict is its items in insertion order, looked up from the front.
    JSON numbers are modelled by the integers, and a string by its
    characters, one byte each. *)
Inductive value : Type :=
| VNone
| VBool (b : bool)
| VInt (z : Z)
| VStr (s : string)
| VList (l : list value)
| VDict (d : list (string * value)).

Fixpoint lookup (k : string) (d : list (string * value)) : option value :=
  match d with
  | [] => None
  | (k', v) :: d' => if String.eqb k k' then Some v else lookup k d'
  end.

(** [bool(v)] *)
Definition truthy (v : value) : bool :=
  match v with
  | VNone => false
  | VBool b => b
  | VInt z => negb (z =? 0)
  | VStr s => negb (String.eqb s "")
  | VList l => match l with [] => false | _ => true end
  | VDict d => match d with [] => false | _ => true end
  end.

(** [a == b]: [True == 1] and [False == 0] hold, lists are equal
    element by element, dicts when they have the same keys with equal
    values. *)
Fixpoint equal (a b : value) {struct a} : bool :=
  match a, b with
  | VNone, VNone => true
  | VBool x, VBool y => Bool.eqb x y
  | VBool x, VInt y => Z.b2z x =? y
  | VInt x, VBool y => x =? Z.b2z y
  | VInt x, VInt y => x =? y
  | VStr x, VStr y => String.eqb x y
  | VList xs, VList ys =>
      (fix all2 (xs ys : list value) {struct xs} : bool :=
         match xs, ys with
         | [], [] => true
         | x :: xs', y :: ys' => equal x y && all2 xs' ys'
         | _, _ => false
         end) xs ys
  | VDict xs, VDict ys =>
      (List.length xs =? List.length ys)%nat &&
      (fix sub (xs : list (string * value)) {struct xs} : bool :=
         match xs with
         | [] => true
         | (k, v) :: xs' =>
             match lookup k ys with
             | Some w => equal v w
             | None => false
             end && sub xs'
         end) xs
  | _, _ => false
  end.

(** [needle in hay] for two strings: [needle] occurs as a substring. *)
Fixpoint str_contains (needle hay : string) : bool :=
  String.prefix needle hay ||
  match hay with
  | EmptyString => false
  | String _ hay' => str_contains needle hay'
  end.

(** The characters of a string, each as a one-character string. *)
Fixpoint chars (s : string) : list value :=
  match s with
  | EmptyString => []
  | String c s' => VStr (String c EmptyString) :: chars s'
  end.

(** [x in c] with [x] a string. *)
Definition contains (x : string) (c : value) : result bool :=
  match c with
  | VDict d => Ok (match lookup x d with Some _ => true | None => false end)
  | VList l => Ok (existsb (fun e => equal (VStr x) e) l)
  | VStr s => Ok (str_contains x s)
  | _ => Raise TypeError
  end.

(** [c[k]] with [k] a string. *)
Definition getitem (c : value) (k : string) : result value :=
  match c with
  | VDict d =>
      match lookup k d with
      | Some v => Ok v
      | None => Raise KeyError
      end
  | _ => Raise TypeError
  end.

(** [o.get(k, default)]: only a dict has the method. *)
Definition get (o : value) (k : string) (default : value) : result value :=
  match o with
  | VDict d =>
      Ok (match lookup k d with Some v => v | None => default end)
  | _ => Raise AttributeError
  end.

(** The items a [for] loop or a comprehension goes through. *)
Definition iter (c : value) : result (list value) :=
  match c with
  | VList l => Ok l
  | VDict d => Ok (map (fun kv => VStr (fst kv)) d)
  | VStr s => Ok (chars s)
  | _ => Raise TypeError
  end.

(** [len(c)] *)
Definition len (c : value) : result nat :=
  match c with
  | VList l => Ok (List.length l)
  | VDict d => Ok (List.length d)
  | VStr s => Ok (String.length s)
  | _ => Raise TypeError
  end.

(** [s.replace(c, r)] on a string, for a one-character pattern [c]. *)
Fixpoint str_replace (c : ascii) (r : string) (s : string) : string :=
  match s with
  | EmptyString => EmptyString
  | String a s' =>
      if Ascii.eqb a c then r ++ str_replace c r s'
      else String a (str_replace c r s')
  end.

(** [o.replace(c, r)]: only a string has the method. *)
Definition replace (o : value) (c : ascii) (r : string) : result value :=
  match o with
  | VStr s => Ok (VStr (str_replace c r s))
  | _ => Raise AttributeError
  end.

(** [sep.join(items)]: every item must be a string. *)
Fixpoint join (sep : string) (items : list value) : result string :=
  match items with
  | [] => Ok ""
  | VStr s :: rest =>
      match rest with
      | [] => Ok s
      | _ => bind (join sep rest) (fun t => Ok (s ++ sep ++ t))
      end
  | _ :: _ => Raise TypeError
  end.

(** [o[:n]] *)
Definition slice_to (n : nat) (o : value) : result value :=
  match o with
  | VStr s => Ok (VStr (String.substring 0 n s))
  | VList l => Ok (VList (firstn n l))
  | _ => Raise TypeError
  end.

End Py.

Import Py.

Open Scope list_scope.

Notation "x <- m ;; k" := (Py.bind m (fun x => k))
  (at level 61, m at next level, right associativity).

(** ** Dates *)

(** What the program reads of a [datetime]: [.year], [.month], [.day]. *)
Record datetime : Type := { year : Z; month : Z; day : Z }.

(** [datetime.fromisoformat] belongs to the Python library, not to the
    program; the development takes it as a parameter.  [Iso.parse] is a
    reference instance: the format the library documents,
    [YYYY-MM-DD[*HH[:MM[:SS[.fff[fff]]]][+HH:MM[:SS[.ffffff]]]]] with [*]
    any one character, and the range checks of the [datetime]
    constructor. *)
Module Iso.

Definition obind {A B : Type} (m : option A) (k : A -> option B) : option B :=
  match m with
  | Some a => k a
  | None => None
  end.

Definition digit (c : ascii) : option Z :=
  let n := Z.of_nat (nat_of_ascii c) in
  if (48 <=? n) && (n <=? 57) then Some (n - 48) else None.

(** Exactly [n] decimal digits at the front of [s]. *)
Fixpoint digits (n : nat) (acc : Z) (s : string) : option (Z * string) :=
  match n with
  | O => Some (acc, s)
  | S n' =>
      match s with
      | EmptyString => None
      | String c s' => obind (digit c) (fun d => digits n' (10 * acc + d) s')
      end
  end.

Definition expect (c : ascii) (s : string) : option string :=
  match s with
  | EmptyString => None
  | String a s' => if Ascii.eqb a c then Some s' else None
  end.

Definition is_leap (y : Z) : bool :=
  (y mod 4 =? 0) && (negb (y mod 100 =? 0) || (y mod 400 =? 0)).

Definition days_in_month (y m : Z) : Z :=
  if m =? 2 then (if is_leap y then 29 else 28)
  else if (m =? 4) || (m =? 6) || (m =? 9) || (m =? 11) then 30
  else 31.

Definition valid_date (y m d : Z) : bool :=
  (1 <=? y) && (y <=? 9999) && (1 <=? m) && (m <=? 12) &&
  (1 <=? d) && (d <=? days_in_month y m).

(** [YYYY-MM-DD] at the front of [s]; the fields and what follows. *)
Definition parse_date (s : string) : option (Z * Z * Z * string) :=
  obind (digits 4 0 s) (fun '(y, s1) =>
  obind (expect "-" s1) (fun s2 =>
  obind (digits 2 0 s2) (fun '(m, s3) =>
  obind (expect "-" s3) (fun s4 =>
  obind (digits 2 0 s4) (fun '(d, s5) =>
  Some (y, m, d, s5)))))).

(** [.fff] or [.ffffff], up to the end; the empty string is no fraction. *)
Definition parse_fraction (s : string) : option Z :=
  match s with
  | EmptyString => Some 0
  | String c s' =>
      if Ascii.eqb c "." then
        match String.length s' with
        | 3%nat => obind (digits 3 0 s') (fun '(f, _) => Some (f * 1000))
        | 6%nat => obind (digits 6 0 s') (fun '(f, _) => Some f)
        | _ => None
        end
      else None
  end.

(** [HH[:MM[:SS[.fff[fff]]]]], the whole of [s]; seconds of the day
    components as (hour, minute, second, microsecond). *)
Definition parse_hh_mm_ss_ff (s : string) : option (Z * Z * Z * Z) :=
  obind (digits 2 0 s) (fun '(h, s1) =>
  match s1 with
  | EmptyString => Some (h, 0, 0, 0)
  | _ =>
      obind (expect ":" s1) (fun s2 =>
      obind (digits 2 0 s2) (fun '(m, s3) =>
      match s3 with
      | EmptyString => Some (h, m, 0, 0)
      | _ =>
          obind (expect ":" s3) (fun s4 =>
          obind (digits 2 0 s4) (fun '(sec, s5) =>
          obind (parse_fraction s5) (fun f => Some (h, m, sec, f))))
      end))
  end).

(** Splits at the first [+] or [-]: the text before it, and the sign
    with the text after it. *)
Fixpoint split_offset (s : string) : string * option string :=
  match s with
  | EmptyString => (EmptyString, None)
  | String c s' =>
      if Ascii.eqb c "+" || Ascii.eqb c "-" then (EmptyString, Some s')
      else let '(t, o) := split_offset s' in (String c t, o)
  end.

Definition valid_time (t : Z * Z * Z * Z) : bool :=
  let '(h, m, s, _) := t in
  (h <? 24) && (m <? 60) && (s <? 60).

(** A UTC offset must stay below 24 hours. *)
Definition valid_offset (t : Z * Z * Z * Z) : bool :=
  let '(h, m, s, _) := t in
  h * 3600 + m * 60 + s <? 86400.

Definition parse_time (s : string) : option unit :=
  let '(t, o) := split_offset s in
  obind (parse_hh_mm_ss_ff t) (fun hms =>
  if valid_time hms then
    match o with
    | None => Some tt
    | Some z =>
        match String.length z with
        | 5%nat | 8%nat | 15%nat =>
            obind (parse_hh_mm_ss_ff z) (fun off =>
            if valid_offset off then Some tt else None)
        | _ => None
        end
    end
  else None).

Definition parse (s : string) : option datetime :=
  obind (parse_date s) (fun '(y, m, d, rest) =>
  if valid_date y m d then
    match rest with
    | EmptyString => Some {| year := y; month := m; day := d |}
    | String _ t =>
        obind (parse_time t) (fun _ =>
        Some {| year := y; month := m; day := d |})
    end
  else None).

End Iso.

(** ** The scraper *)

(** One collected user: the dict [user_data] of
    [extract_users_from_response], a field per key. *)
Record user_data : Type := {
  user_id : value;
  name : value;
  age : value;
  bio : value;
  birth_date : value;
  photo_count : nat;
  photo_urls : string
}.

(** The attributes of a [TinderScraper] the collector loop uses, and the
    CSV file: [csv_rows] holds the rows written after the header, each as
    the dict handed to [DictWriter.writerows]. *)
Record scraper : Type := {
  users_collected : list user_data;
  request_count : Z;
  csv_filename : string;
  csv_rows : list user_data
}.

(** [TinderScraper.__init__] with [init_csv]: nothing collected, no
    request made, a file that holds the header only. *)
Definition TinderScraper (filename : string) : scraper :=
  {| users_collected := [];
     request_count := 0;
     csv_filename := filename;
     csv_rows := [] |}.

(** What the program prints, one constructor per line that carries data. *)
Inductive message : Type :=
| MsgRequest (n : Z)
| MsgRequestFailed (e : string)
| MsgParseFailed
| MsgNon200 (status_code : option Z) (response_data : value)
| MsgFound (new_users_count total : nat)
| MsgNoNewUsers
| MsgInterrupted
| MsgTotalRequests (n : Z)
| MsgTotalUsers (n : nat)
| MsgCsvFile (filename : string)
| MsgSampleHeader
| MsgSample (i : nat) (name id8 age : value) (photos : nat)
| MsgMore (n : nat).

(** What one pass of the loop meets outside the program: the outcome of
    [requests.get], the date [datetime.now()] reads while the page is
    processed, and whether Ctrl+C arrives during [time.sleep]. *)
Inductive net : Type :=
| Reply (status_code : Z) (text : string) (json : option value)
| RequestException (e : string)
| NetInterrupt.

Record cycle : Type := {
  net_event : net;
  clock : datetime;
  sleep_interrupted : bool
}.

(** The terminal states of the loop. *)
Inductive stop : Type :=
| STOP_NON_200
| STOP_EMPTY_PAGE
| STOP_REQUEST_LIMIT
| STOP_INTERRUPTED.

(** How a block ends: it leaves normally through one of the exits, an
    exception propagates, or the environment given so far is used up and
    the loop is still going. *)
Inductive completion : Type :=
| Exit (s : stop)
| Raised (e : exn)
| Running.

Record run : Type := {
  state : scraper;
  printed : list message;
  how : completion
}.

Section Scraper.

(** [datetime.fromisoformat]: the date of a string, or [None] where the
    library raises [ValueError]. *)
Variable fromisoformat : string -> option datetime.

Definition py_fromisoformat (v : value) : result datetime :=
  match v with
  | VStr s =>
      match fromisoformat s with
      | Some d => Ok d
      | None => Raise ValueError
      end
  | _ => Raise TypeError
  end.

(** The [try] block of [calculate_age]; [today] is what
    [datetime.now()] returns. *)
Definition calculate_age_try (today : datetime) (birth_date_str : value)
  : result value :=
  if negb (truthy birth_date_str) || equal birth_date_str (VStr "N/A")
  then Ok (VStr "N/A")
  else
    s <- replace birth_date_str "Z" "+00:00" ;;
    birth_date <- py_fromisoformat s ;;
    let age := year today - year birth_date in
    let age :=
      if (month today <? month birth_date)
         || ((month today =? month birth_date)
             && (day today <? day birth_date))
      then age - 1 else age in
    Ok (VInt age).

(** [calculate_age]: the bare [except] turns every exception of the
    block into ['N/A']. *)
Definition calculate_age (today : datetime) (birth_date_str : value)
  : result value :=
  match calculate_age_try today birth_date_str with
  | Ok age => Ok age
  | Raise _ => Ok (VStr "N/A")
  end.

(** [[p.get('url') for p in photos if p.get('url')]] *)
Fixpoint photo_url_list (photos : list value) : result (list value) :=
  match photos with
  | [] => Ok []
  | p :: rest =>
      u <- get p "url" VNone ;;
      if truthy u then
        u' <- get p "url" VNone ;;
        urls <- photo_url_list rest ;;
        Ok (u' :: urls)
      else photo_url_list rest
  end.

(** Lines 161 to 172: the [user_data] of a [user] that passed the
    checks, its fields in the order the program evaluates them. *)
Definition user_data_of (today : datetime) (user uid : value)
  : result user_data :=
  photos <- get user "photos" (VList []) ;;
  items <- iter photos ;;
  urls <- photo_url_list items ;;
  nm <- get user "name" (VStr "") ;;
  bd <- get user "birth_date" (VStr "") ;;
  ag <- calculate_age today bd ;;
  b <- get user "bio" VNone ;;
  b1 <- replace (if truthy b then b else VStr "") "010" " " ;;
  b2 <- replace b1 "013" " " ;;
  bd' <- get user "birth_date" (VStr "") ;;
  n <- len photos ;;
  joined <- join " | " urls ;;
  Ok {| user_id := uid;
        name := nm;
        age := ag;
        bio := b2;
        birth_date := bd';
        photo_count := n;
        photo_urls := joined |}.

(** The body of the [for] loop of [extract_users_from_response] on one
    [result]: [Ok None] is [continue], [Ok (Some u)] the [user_data] to
    append. *)
Definition extract_user (today : datetime) (collected : list user_data)
    (result : value) : Py.result (option user_data) :=
  ty <- get result "type" VNone ;;
  if negb (equal ty (VStr "user")) then Ok None
  else
    user <- get result "user" (VDict []) ;;
    uid <- get user "_id" VNone ;;
    if negb (truthy uid)
       || existsb (fun u => equal (user_id u) uid) collected
    then Ok None
    else
      u <- user_data_of today user uid ;;
      Ok (Some u).

(** The [for] loop: the collection grows as the loop goes, and an
    exception leaves what was appended before it. *)
Fixpoint extract_loop (today : datetime) (results : list value)
    (collected : list user_data) (users_found : nat)
  : list user_data * result nat :=
  match results with
  | [] => (collected, Ok users_found)
  | result :: rest =>
      match extract_user today collected result with
      | Raise e => (collected, Raise e)
      | Ok None => extract_loop today rest collected users_found
      | Ok (Some u) =>
          extract_loop today rest (collected ++ [u]) (S users_found)
      end
  end.

(** [if 'data' not in data or 'results' not in data['data']] *)
Definition lacks_results (data : value) : result bool :=
  has_data <- contains "data" data ;;
  if negb has_data then Ok true
  else
    inner <- getitem data "data" ;;
    has_results <- contains "results" inner ;;
    Ok (negb has_results).

Definition extract_users_from_response (today : datetime) (data : value)
    (s : scraper) : scraper * result nat :=
  match lacks_results data with
  | Raise e => (s, Raise e)
  | Ok true => (s, Ok 0%nat)
  | Ok false =>
      match (inner <- getitem data "data" ;;
             rs <- getitem inner "results" ;;
             iter rs) with
      | Raise e => (s, Raise e)
      | Ok results =>
          let '(collected, r) :=
            extract_loop today results (users_collected s) 0 in
          ({| users_collected := collected;
              request_count := request_count s;
              csv_filename := csv_filename s;
              csv_rows := csv_rows s |}, r)
      end
  end.

(** [save_users_to_csv]: nothing for an empty batch, else the rows go to
    the end of the file. *)
Definition save_users_to_csv (new_users_data : list user_data) (s : scraper)
  : scraper :=
  match new_users_data with
  | [] => s
  | _ =>
      {| users_collected := users_collected s;
         request_count := request_count s;
         csv_filename := csv_filename s;
         csv_rows := csv_rows s ++ new_users_data |}
  end.

(** [make_recs_request]: the pair [(status_code, body)] it returns and
    what it prints.  In [Reply c t j], [t] is [response.text] and [j] is
    what [response.json()] returns, [None] when it raises
    [JSONDecodeError]. *)
Definition make_recs_request (n : net)
  : list message * result (option Z * value) :=
  match n with
  | Reply status_code text json =>
      if status_code =? 200 then
        match json with
        | Some body => ([], Ok (Some status_code, body))
        | None => ([MsgParseFailed], Ok (Some status_code, VStr text))
        end
      else ([], Ok (Some status_code, VStr text))
  | RequestException e => ([MsgRequestFailed e], Ok (None, VStr e))
  | NetInterrupt => ([], Raise KeyboardInterrupt)
  end.

(** [status_code != 200] *)
Definition not_200 (status_code : option Z) : bool :=
  match status_code with
  | Some c => negb (c =? 200)
  | None => true
  end.

(** [not max_requests or self.request_count < max_requests] *)
Definition while_condition (max_requests : option Z) (s : scraper) : bool :=
  match max_requests with
  | None => true
  | Some m => (m =? 0) || (request_count s <? m)
  end.

Definition with_request_count (n : Z) (s : scraper) : scraper :=
  {| users_collected := users_collected s;
     request_count := n;
     csv_filename := csv_filename s;
     csv_rows := csv_rows s |}.

Definition after (out : list message) (r : run) : run :=
  {| state := state r; printed := out ++ printed r; how := how r |}.

(** The [while] loop of [run_continuous_scraping], one [cycle] of the
    environment per pass. *)
Fixpoint scraping_loop (max_requests : option Z) (env : list cycle)
    (s : scraper) : run :=
  if while_condition max_requests s then
    match env with
    | [] => {| state := s; printed := []; how := Running |}
    | c :: env' =>
        let s1 := with_request_count (request_count s + 1) s in
        let '(log, r) := make_recs_request (net_event c) in
        let out1 := MsgRequest (request_count s1) :: log in
        match r with
        | Raise e => {| state := s1; printed := out1; how := Raised e |}
        | Ok (status_code, response_data) =>
            if not_200 status_code then
              {| state := s1;
                 printed := out1 ++ [MsgNon200 status_code response_data];
                 how := Exit STOP_NON_200 |}
            else
              let initial_user_count := List.length (users_collected s1) in
              let '(s2, r2) :=
                extract_users_from_response (clock c) response_data s1 in
              match r2 with
              | Raise e =>
                  {| state := s2; printed := out1; how := Raised e |}
              | Ok new_users_count =>
                  if (0 <? new_users_count)%nat then
                    let new_batch :=
                      skipn initial_user_count (users_collected s2) in
                    let s3 := save_users_to_csv new_batch s2 in
                    let out3 :=
                      out1 ++ [MsgFound new_users_count
                                 (List.length (users_collected s3))] in
                    if sleep_interrupted c then
                      {| state := s3; printed := out3;
                         how := Raised KeyboardInterrupt |}
                    else after out3 (scraping_loop max_requests env' s3)
                  else
                    {| state := s2; printed := out1 ++ [MsgNoNewUsers];
                       how := Exit STOP_EMPTY_PAGE |}
              end
        end
    end
  else {| state := s; printed := []; how := Exit STOP_REQUEST_LIMIT |}.

(** [except KeyboardInterrupt:] after a block. *)
Definition except_KeyboardInterrupt (r : run) : run :=
  match how r with
  | Raised KeyboardInterrupt =>
      {| state := state r;
         printed := printed r ++ [MsgInterrupted];
         how := Exit STOP_INTERRUPTED |}
  | _ => r
  end.

(** [finally:] after a block: [block] runs however the block before it
    ended, and an exception of its own replaces the earlier ending. *)
Definition finally (block : scraper -> list message * option exn) (r : run)
  : run :=
  match how r with
  | Running => r
  | _ =>
      let '(out, e) := block (state r) in
      {| state := state r;
         printed := printed r ++ out;
         how := match e with Some e' => Raised e' | None => how r end |}
  end.

(** The [for i, user in enumerate(...)] loop of the summary; [i] counts
    the lines printed so far. *)
Fixpoint sample (i : nat) (users : list user_data)
  : list message * option exn :=
  match users with
  | [] => ([], None)
  | user :: rest =>
      match slice_to 8 (user_id user) with
      | Raise e => ([], Some e)
      | Ok id8 =>
          let '(out, e) := sample (S i) rest in
          (MsgSample (S i) (name user) id8 (age user) (photo_count user)
             :: out, e)
      end
  end.

(** The [finally] block of [run_continuous_scraping]. *)
Definition summary (s : scraper) : list message * option exn :=
  let totals :=
    [MsgTotalRequests (request_count s);
     MsgTotalUsers (List.length (users_collected s));
     MsgCsvFile (csv_filename s)] in
  match users_collected s with
  | [] => (totals, None)
  | _ =>
      let '(out, e) := sample 0 (firstn 5 (users_collected s)) in
      match e with
      | Some e' => (totals ++ MsgSampleHeader :: out, Some e')
      | None =>
          (totals ++ MsgSampleHeader :: out ++
             (if (5 <? List.length (users_collected s))%nat
              then [MsgMore (List.length (users_collected s) - 5)]
              else []),
           None)
      end
  end.

(** [run_continuous_scraping(delay_between_requests, max_requests)]; the
    delay only sets how long [time.sleep] waits and is left out. *)
Definition run_continuous_scraping (max_requests : option Z)
    (env : list cycle) (s : scraper) : run :=
  finally summary (except_KeyboardInterrupt (scraping_loop max_requests env s)).

End Scraper.

(** ** The vocabulary of the properties *)

(** [(a, b)] strictly before [(c, d)] in the lexicographic order. *)
Definition lex_lt (p q : Z * Z) : Prop :=
  fst p < fst q \/ (fst p = fst q /\ snd p < snd q).

Definition on (y m d : Z) : datetime := {| year := y; month := m; day := d |}.

Definition nonempty (s : string) : bool := negb (String.eqb s "").

Definition default (d : value) (o : option value) : value :=
  match o with
  | Some v => v
  | None => d
  end.

(** The age [calculate_age] gives, which always exists. *)
Definition the_age (parse : string -> option datetime) (today : datetime)
    (v : value) : value :=
  match calculate_age parse today v with
  | Ok a => a
  | Raise _ => VStr "N/A"
  end.

(** A photo entry and the text of its [url]; an entry without the key, or
    with [null] under it, has no text. *)
Inductive photo_url : value -> string -> Prop :=
| photo_with_url d u :
    lookup "url" d = Some (VStr u) -> photo_url (VDict d) u
| photo_null_url d :
    lookup "url" d = Some VNone -> photo_url (VDict d) ""
| photo_without_url d :
    lookup "url" d = None -> photo_url (VDict d) "".

(** The [bio] of a user object and its text. *)
Inductive bio_text (d : list (string * value)) : string -> Prop :=
| bio_string b : lookup "bio" d = Some (VStr b) -> bio_text d b
| bio_null : lookup "bio" d = Some VNone -> bio_text d ""
| bio_absent : lookup "bio" d = None -> bio_text d "".

(** No row has an [_id] that compares equal to the [_id] of a row after
    it; the comparison is the one the program makes, with the stored row
    on the left. *)
Definition distinct_ids (rows : list user_data) : Prop :=
  ForallOrdPairs (fun u v => equal (user_id u) (user_id v) = false) rows.

(** The rows whose [user_id] is the string [s]. *)
Definition has_id (s : string) (u : user_data) : bool :=
  match user_id u with
  | VStr t => String.eqb t s
  | _ => false
  end.

(** A profile as the API sends it, every field a string. *)
Record profile : Type := {
  p_id : string;
  p_name : string;
  p_bio : string;
  p_birth_date : string;
  p_photos : list string
}.

Definition photo_object (url : string) : value := VDict [("url", VStr url)].

Definition user_object (p : profile) : value :=
  VDict [("_id", VStr (p_id p));
         ("name", VStr (p_name p));
         ("bio", VStr (p_bio p));
         ("birth_date", VStr (p_birth_date p));
         ("photos", VList (map photo_object (p_photos p)))].

Definition user_result (p : profile) : value :=
  VDict [("type", VStr "user"); ("user", user_object p)].

(** The body of a page: [{"meta": ..., "data": {"results": [...]}}]. *)
Definition page (results : list value) : value :=
  VDict [("meta", VDict [("status", VInt 200)]);
         ("data", VDict [("results", VList results)])].

(** The row the program derives from a profile. *)
Definition row (parse : string -> option datetime) (today : datetime)
    (p : profile) : user_data :=
  {| user_id := VStr (p_id p);
     name := VStr (p_name p);
     age := the_age parse today (VStr (p_birth_date p));
     bio := VStr (str_replace "013" " " (str_replace "010" " " (p_bio p)));
     birth_date := VStr (p_birth_date p);
     photo_count := List.length (p_photos p);
     photo_urls := String.concat " | " (filter nonempty (p_photos p)) |}.

(** A pass in which the request is answered with status 200 and a body
    that parses, and the delay is not interrupted. *)
Definition served (today : datetime) (text : string) (body : value) : cycle :=
  {| net_event := Reply 200 text (Some body);
     clock := today;
     sleep_interrupted := false |}.

Definition is_request (m : message) : bool :=
  match m with
  | MsgRequest _ => true
  | _ => false
  end.

(** The requests a run has issued: each is announced by one
    [MsgRequest] line, printed right before [make_recs_request]. *)
Definition requests_issued (out : list message) : nat :=
  List.length (filter is_request out).

(** [enumerate(rows, start=i)] *)
Fixpoint numbered (i : nat) (rows : list user_data)
  : list (nat * user_data) :=
  match rows with
  | [] => []
  | u :: rest => (i, u) :: numbered (S i) rest
  end.

Definition id_prefix (u : user_data) : value :=
  match user_id u with
  | VStr id => VStr (String.substring 0 8 id)
  | v => v
  end.

Definition sample_line (iu : nat * user_data) : message :=
  MsgSample (fst iu) (name (snd iu)) (id_prefix (snd iu)) (age (snd iu))
    (photo_count (snd iu)).

(** The three totals of the summary. *)
Definition totals (s : scraper) : list message :=
  [MsgTotalRequests (request_count s);
   MsgTotalUsers (List.length (users_collected s));
   MsgCsvFile (csv_filename s)].

(** The preview of the summary: nothing without rows, else a line for
    each of the first five rows, numbered from 1, and the count of the
    rows beyond five. *)
Definition preview (rows : list user_data) : list message :=
  match rows with
  | [] => []
  | _ =>
      MsgSampleHeader :: map sample_line (numbered 1 (firstn 5 rows))
      ++ (if (5 <? List.length rows)%nat
          then [MsgMore (List.length rows - 5)]
          else [])
  end.

Definition string_id (u : user_data) : Prop :=
  exists id, user_id u = VStr id.

(** ** The profile settings *)

(** The outcome of one [requests.post]. *)
Inductive post : Type :=
| PostReply (status_code : Z) (text : string)
| PostException (e : string)
| PostInterrupt.

(** What the settings methods print, a constructor per line. *)
Inductive update_message : Type :=
| MsgUpdating (action_name : string)
| MsgUpdated (action_name : string)
| MsgUpdateFailed (action_name : string) (status_code : Z)
| MsgUpdateResponse (text : string)
| MsgUpdateRequestFailed (action_name : string) (e : string)
| MsgInvalidGender (gender_code : value).

(** A call of a settings method: the JSON body it handed to
    [requests.post], if it got that far, what it printed, and how it
    ended. *)
Record update : Type := {
  posted : option value;
  update_log : list update_message;
  update_end : result unit
}.

(** [_make_profile_update_request(data, action_name)]; [p] is what the
    request meets. *)
Definition _make_profile_update_request (data : value) (action_name : string)
    (p : post) : update :=
  match p with
  | PostReply status_code text =>
      {| posted := Some data;
         update_log :=
           MsgUpdating action_name
           :: (if status_code =? 200 then [MsgUpdated action_name]
               else [MsgUpdateFailed action_name status_code;
                     MsgUpdateResponse text]);
         update_end := Ok tt |}
  | PostException e =>
      {| posted := Some data;
         update_log :=
           [MsgUpdating action_name; MsgUpdateRequestFailed action_name e];
         update_end := Ok tt |}
  | PostInterrupt =>
      {| posted := Some data;
         update_log := [MsgUpdating action_name];
         update_end := Raise KeyboardInterrupt |}
  end.

(** [gender_map = {0: "Men", 1: "Women"}] looked up with [code]: a key
    is found by [==], so [False] and [True] find 0 and 1; a list or a
    dict cannot be hashed. *)
Definition gender_map (code : value) : result (option string) :=
  match code with
  | VList _ | VDict _ => Raise TypeError
  | _ =>
      if equal (VInt 0) code then Ok (Some "Men")
      else if equal (VInt 1) code then Ok (Some "Women")
      else Ok None
  end.

(** [update_gender_interest(gender_code)] *)
Definition update_gender_interest (gender_code : value) (p : post) : update :=
  match gender_map gender_code with
  | Raise e => {| posted := None; update_log := []; update_end := Raise e |}
  | Ok None =>
      {| posted := None;
         update_log := [MsgInvalidGender gender_code];
         update_end := Ok tt |}
  | Ok (Some who) =>
      _make_profile_update_request
        (VDict [("interested_in_genders", VList [gender_code])])
        ("gender interest to " ++ who)%string p
  end.

(** ** More vocabulary *)

(** The rows the extraction can make. *)
Definition produced (parse : string -> option datetime) (u : user_data)
  : Prop :=
  exists today collected result,
    extract_user parse today collected result = Ok (Some u).


(** [s] with a blank for every line feed and every carriage return. *)
Fixpoint blank_newlines (s : string) : string :=
  match s with
  | EmptyString => EmptyString
  | String c s' =>
      String (if Ascii.eqb c "010" || Ascii.eqb c "013" then " "%char else c)
        (blank_newlines s')
  end.

(** [c] occurs in [s]. *)
Definition occurs (c : ascii) (s : string) : Prop :=
  In c (list_ascii_of_string s).

(** A date not after another, by year, then month, then day. *)
Definition date_le (a b : datetime) : Prop :=
  year a < year b
  \/ (year a = year b
      /\ (month a < month b \/ (month a = month b /\ day a <= day b))).

(** A computation that does not raise [KeyboardInterrupt]. *)
Definition quiet {A : Type} (m : result A) : Prop :=
  forall e, m = Raise e -> e <> KeyboardInterrupt.

(** An entry the extraction passes over: a dict that is not of type
    ['user'], or one of type ['user'] whose user object has no [_id], or
    [null] or the empty string as [_id]. *)
Inductive passed_over : value -> Prop :=
| other_type e :
    lookup "type" e <> Some (VStr "user") -> passed_over (VDict e)
| user_absent e :
    lookup "user" e = None -> passed_over (VDict e)
| id_absent e d :
    lookup "user" e = Some (VDict d) ->
    lookup "_id" d = None -> passed_over (VDict e)
| id_null e d :
    lookup "user" e = Some (VDict d) ->
    lookup "_id" d = Some VNone -> passed_over (VDict e)
| id_empty e d :
    lookup "user" e = Some (VDict d) ->
    lookup "_id" d = Some (VStr "") -> passed_over (VDict e).

Definition is_sample (m : message) : bool :=
  match m with
  | MsgSample _ _ _ _ _ => true
  | _ => false
  end.


(** ** Properties of [calculate_age] *)

Lemma birthday_test (today birth : datetime) :
  ((month today <? month birth)
   || ((month today =? month birth) && (day today <? day birth))) = true
  <-> lex_lt (month today, day today) (month birth, day birth).
Proof.
  unfold lex_lt; simpl.
  rewrite orb_true_iff, andb_true_iff, !Z.ltb_lt, Z.eqb_eq.
  reflexivity.
Qed.

Lemma calculate_age_try_parsed parse today s birth :
  s <> "" -> s <> "N/A" ->
  parse (str_replace "Z" "+00:00" s) = Some birth ->
  calculate_age_try parse today (VStr s) =
  Ok (VInt (if (month today <? month birth)
               || ((month today =? month birth)
                   && (day today <? day birth))
            then year today - year birth - 1
            else year today - year birth)).
Proof.
  intros Hne Hna Hp.
  unfold calculate_age_try; simpl.
  apply String.eqb_neq in Hne, Hna.
  rewrite Hne, Hna; simpl.
  rewrite Hp. reflexivity.
Qed.

Lemma calculate_age_total parse today v :
  exists a, calculate_age parse today v = Ok a
            /\ (a = VStr "N/A" \/ exists z, a = VInt z).
Proof.
  unfold calculate_age.
  destruct (calculate_age_try parse today v) as [a|e] eqn:E.
  - exists a; split; [reflexivity|].
    unfold calculate_age_try in E.
    destruct (negb (truthy v) || equal v (VStr "N/A")).
    + inversion E; auto.
    + destruct (replace v "Z" "+00:00") as [w|]; simpl in E; [|discriminate].
      destruct (py_fromisoformat parse w); simpl in E; [|discriminate].
      inversion E; eauto.
  - exists (VStr "N/A"); auto.
Qed.

(** C4: whenever the date of the string parses, [calculate_age] is the
    difference of the years, less one exactly when (month, day) of today
    comes strictly before (month, day) of the birth date in the
    lexicographic order; for ["2000-06-15"] it is 23 on 2024-06-14 and 24
    on 2024-06-15 and on every later day of 2024. *)
Theorem calculate_age_whole_years :
  (forall parse today s birth,
      s <> "" -> s <> "N/A" ->
      parse (str_replace "Z" "+00:00" s) = Some birth ->
      (lex_lt (month today, day today) (month birth, day birth) ->
       calculate_age parse today (VStr s)
       = Ok (VInt (year today - year birth - 1)))
      /\ (~ lex_lt (month today, day today) (month birth, day birth) ->
          calculate_age parse today (VStr s)
          = Ok (VInt (year today - year birth))))
  /\ calculate_age Iso.parse (on 2024 6 14) (VStr "2000-06-15") = Ok (VInt 23)
  /\ calculate_age Iso.parse (on 2024 6 15) (VStr "2000-06-15") = Ok (VInt 24)
  /\ (forall m d,
         ~ lex_lt (m, d) (6, 15) ->
         calculate_age Iso.parse (on 2024 m d) (VStr "2000-06-15")
         = Ok (VInt 24)).
Proof.
  assert (G : forall parse today s birth,
      s <> "" -> s <> "N/A" ->
      parse (str_replace "Z" "+00:00" s) = Some birth ->
      (lex_lt (month today, day today) (month birth, day birth) ->
       calculate_age parse today (VStr s)
       = Ok (VInt (year today - year birth - 1)))
      /\ (~ lex_lt (month today, day today) (month birth, day birth) ->
          calculate_age parse today (VStr s)
          = Ok (VInt (year today - year birth)))).
  { intros parse today s birth Hne Hna Hp.
    unfold calculate_age.
    rewrite (calculate_age_try_parsed parse today s birth Hne Hna Hp).
    destruct (_ || _) eqn:T.
    - apply birthday_test in T. split; [reflexivity | tauto].
    - split; [|reflexivity].
      intro L. apply birthday_test in L. congruence. }
  split; [exact G|].
  split; [reflexivity|].
  split; [reflexivity|].
  intros m d L.
  destruct (G Iso.parse (on 2024 m d) "2000-06-15" (on 2000 6 15)) as [_ H];
    [discriminate | discriminate | reflexivity |].
  apply H. exact L.
Qed.

Lemma calculate_age_whole_years_witness :
  "1995-07-14T22:07:01.046Z" <> ""
  /\ Iso.parse (str_replace "Z" "+00:00" "1995-07-14T22:07:01.046Z")
     = Some (on 1995 7 14)
  /\ lex_lt (3, 2) (7, 14)
  /\ calculate_age Iso.parse (on 2024 3 2) (VStr "1995-07-14T22:07:01.046Z")
     = Ok (VInt 28).
Proof.
  split; [discriminate|].
  split; [reflexivity|].
  split; [left; reflexivity|].
  apply (proj1 (proj1 calculate_age_whole_years
                  Iso.parse (on 2024 3 2) "1995-07-14T22:07:01.046Z"
                  (on 1995 7 14)
                  ltac:(discriminate) ltac:(discriminate) eq_refl)).
  left; reflexivity.
Defined.

(** C5: on the empty string, on ["N/A"] and on every string whose date
    does not parse, [calculate_age] returns ['N/A']; on every value
    whatever it returns and does not raise. *)
Theorem calculate_age_sentinel :
  (forall parse today s,
      s = "" \/ s = "N/A" \/ parse (str_replace "Z" "+00:00" s) = None ->
      calculate_age parse today (VStr s) = Ok (VStr "N/A"))
  /\ (forall parse today v,
         exists a, calculate_age parse today v = Ok a)
  /\ (forall today,
         calculate_age Iso.parse today (VStr "not-a-date") = Ok (VStr "N/A")
         /\ calculate_age Iso.parse today (VStr "2000-13-45")
            = Ok (VStr "N/A")
         /\ calculate_age Iso.parse today (VStr "2023-02-29")
            = Ok (VStr "N/A")).
Proof.
  split; [|split].
  - intros parse today s [-> | [-> | Hp]]; try reflexivity.
    unfold calculate_age, calculate_age_try; simpl.
    destruct (negb (negb (s =? ""))%string || (s =? "N/A")%string);
      [reflexivity|].
    simpl. rewrite Hp. reflexivity.
  - intros parse today v.
    destruct (calculate_age_total parse today v) as [a [E _]].
    exists a; exact E.
  - intros today. repeat split; reflexivity.
Qed.

Lemma calculate_age_sentinel_witness :
  Iso.parse (str_replace "Z" "+00:00" "15/06/2000") = None
  /\ calculate_age Iso.parse (on 2024 6 14) (VStr "15/06/2000")
     = Ok (VStr "N/A").
Proof.
  split; [reflexivity|].
  apply (proj1 calculate_age_sentinel Iso.parse (on 2024 6 14) "15/06/2000").
  right; right; reflexivity.
Defined.

(** ** Properties of the extraction *)

Lemma get_dict d k dflt :
  get (VDict d) k dflt = Ok (default dflt (lookup k d)).
Proof. reflexivity. Qed.

Lemma calculate_age_the_age parse today v :
  calculate_age parse today v = Ok (the_age parse today v).
Proof.
  unfold the_age.
  destruct (calculate_age_total parse today v) as [a [E _]].
  rewrite E. reflexivity.
Qed.

Lemma join_strings sep (l : list string) :
  join sep (map VStr l) = Ok (String.concat sep l).
Proof.
  induction l as [|x [|y rest] IH]; try reflexivity.
  change (join sep (map VStr (x :: y :: rest)))
    with (t <- join sep (map VStr (y :: rest)) ;; Ok (x ++ sep ++ t)%string).
  rewrite IH. reflexivity.
Qed.

Lemma photo_url_list_typed photos urls :
  Forall2 photo_url photos urls ->
  photo_url_list photos = Ok (map VStr (filter nonempty urls)).
Proof.
  induction 1 as [|p u photos urls Hp _ IH]; [reflexivity|].
  destruct Hp as [d u Hu | d Hu | d Hu]; simpl; rewrite Hu; simpl.
  - unfold nonempty. destruct (negb (u =? "")%string) eqn:E.
    + simpl. rewrite IH. reflexivity.
    + exact IH.
  - exact IH.
  - exact IH.
Qed.

Lemma user_data_of_typed parse today d uid photos urls b :
  lookup "photos" d = Some (VList photos) ->
  Forall2 photo_url photos urls ->
  bio_text d b ->
  user_data_of parse today (VDict d) uid =
  Ok {| user_id := uid;
        name := default (VStr "") (lookup "name" d);
        age := the_age parse today (default (VStr "") (lookup "birth_date" d));
        bio := VStr (str_replace "013" " " (str_replace "010" " " b));
        birth_date := default (VStr "") (lookup "birth_date" d);
        photo_count := List.length photos;
        photo_urls := String.concat " | " (filter nonempty urls) |}.
Proof.
  intros Hph Hurls Hbio.
  unfold user_data_of, get. rewrite Hph. cbn [Py.bind iter len].
  rewrite (photo_url_list_typed photos urls Hurls). cbn [Py.bind].
  rewrite calculate_age_the_age. cbn [Py.bind].
  rewrite join_strings.
  destruct Hbio as [b Hb | Hb | Hb]; rewrite Hb; cbn [Py.bind truthy].
  - destruct (negb (b =? "")%string) eqn:E; [reflexivity|].
    apply negb_false_iff, String.eqb_eq in E. subst b. reflexivity.
  - reflexivity.
  - reflexivity.
Qed.

Lemma user_data_of_id parse today user uid u :
  user_data_of parse today user uid = Ok u -> user_id u = uid.
Proof.
  unfold user_data_of. intros H.
  repeat match type of H with
         | Py.bind ?m _ = Ok _ =>
             destruct m; cbn [Py.bind] in H; [|discriminate]
         end.
  inversion H. reflexivity.
Qed.

(** An entry is appended only with an [_id] that is true and that no
    collected user has. *)
Lemma extract_user_fresh parse today collected result u :
  extract_user parse today collected result = Ok (Some u) ->
  truthy (user_id u) = true
  /\ existsb (fun v => equal (user_id v) (user_id u)) collected = false.
Proof.
  unfold extract_user. intros H.
  destruct (get result "type" VNone) as [ty|]; cbn [Py.bind] in H;
    [|discriminate].
  destruct (negb (equal ty (VStr "user"))); [discriminate|].
  destruct (get result "user" (VDict [])) as [user|]; cbn [Py.bind] in H;
    [|discriminate].
  destruct (get user "_id" VNone) as [uid|]; cbn [Py.bind] in H;
    [|discriminate].
  destruct (negb (truthy uid) || _) eqn:E; [discriminate|].
  destruct (user_data_of parse today user uid) as [r|] eqn:R;
    cbn [Py.bind] in H; [|discriminate].
  inversion H; subst r.
  rewrite (user_data_of_id _ _ _ _ _ R).
  apply orb_false_iff in E. destruct E as [E1 E2].
  apply negb_false_iff in E1. auto.
Qed.

(** An entry that was skipped stays skipped when the collection grows. *)
Lemma extract_user_skipped parse today today' collected collected' result :
  extract_user parse today collected result = Ok None ->
  incl collected collected' ->
  extract_user parse today' collected' result = Ok None.
Proof.
  unfold extract_user. intros H Hincl.
  destruct (get result "type" VNone) as [ty|]; cbn [Py.bind] in *;
    [|discriminate].
  destruct (negb (equal ty (VStr "user"))); [reflexivity|].
  destruct (get result "user" (VDict [])) as [user|]; cbn [Py.bind] in *;
    [|discriminate].
  destruct (get user "_id" VNone) as [uid|]; cbn [Py.bind] in *;
    [|discriminate].
  destruct (negb (truthy uid)); [reflexivity|]. cbn [orb] in *.
  destruct (existsb _ collected) eqn:E.
  - apply existsb_exists in E. destruct E as [v [Hin Hv]].
    assert (E' : existsb (fun u => equal (user_id u) uid) collected' = true).
    { apply existsb_exists. exists v. auto. }
    rewrite E'. reflexivity.
  - destruct (user_data_of parse today user uid); cbn [Py.bind] in H;
      discriminate.
Qed.

(** An entry that was appended is skipped afterwards, its [_id] being a
    string. *)
Lemma extract_user_stored parse today today' collected collected' result u s :
  extract_user parse today collected result = Ok (Some u) ->
  user_id u = VStr s ->
  In u collected' ->
  extract_user parse today' collected' result = Ok None.
Proof.
  unfold extract_user. intros H Hs Hin.
  destruct (get result "type" VNone) as [ty|]; cbn [Py.bind] in *;
    [|discriminate].
  destruct (negb (equal ty (VStr "user"))); [reflexivity|].
  destruct (get result "user" (VDict [])) as [user|]; cbn [Py.bind] in *;
    [|discriminate].
  destruct (get user "_id" VNone) as [uid|]; cbn [Py.bind] in *;
    [|discriminate].
  destruct (negb (truthy uid) || _); [discriminate|].
  destruct (user_data_of parse today user uid) as [r|] eqn:R;
    cbn [Py.bind] in H; [|discriminate].
  inversion H; subst r.
  apply user_data_of_id in R. rewrite Hs in R. subst uid.
  assert (E : existsb (fun v => equal (user_id v) (VStr s)) collected' = true).
  { apply existsb_exists. exists u. split; [exact Hin|].
    rewrite Hs. simpl. apply String.eqb_refl. }
  rewrite E, orb_true_r. reflexivity.
Qed.

(** C6: a user entry that is extracted gets as [photo_count] the number
    of its photo entries and as [photo_urls] the non-empty urls in the
    order of the entries, joined with [" | "]; the photos
    [[{"url":"a"},{"url":""},{"url":"b"}]] give 3 and ["a | b"]. *)
Theorem photo_count_and_urls :
  (forall parse today collected e d uid photos urls b,
      lookup "type" e = Some (VStr "user") ->
      lookup "user" e = Some (VDict d) ->
      lookup "_id" d = Some uid ->
      truthy uid = true ->
      existsb (fun v => equal (user_id v) uid) collected = false ->
      lookup "photos" d = Some (VList photos) ->
      Forall2 photo_url photos urls ->
      bio_text d b ->
      exists u,
        extract_user parse today collected (VDict e) = Ok (Some u)
        /\ photo_count u = List.length photos
        /\ photo_urls u = String.concat " | " (filter nonempty urls))
  /\ (forall parse today file,
         let photos :=
           VList [VDict [("url", VStr "a")];
                  VDict [("url", VStr "")];
                  VDict [("url", VStr "b")]] in
         let data :=
           VDict [("data",
                   VDict [("results",
                           VList [VDict [("type", VStr "user");
                                         ("user",
                                          VDict [("_id", VStr "u1");
                                                 ("photos", photos)])]])])] in
         let '(s, r) :=
           extract_users_from_response parse today data (TinderScraper file) in
         r = Ok 1%nat
         /\ map photo_count (users_collected s) = [3%nat]
         /\ map photo_urls (users_collected s) = ["a | b"]).
Proof.
  split.
  - intros parse today collected e d uid photos urls b
           Hty Hus Hid Htr Hnew Hph Hurls Hbio.
    unfold extract_user.
    rewrite get_dict, Hty. cbn [default Py.bind].
    replace (negb (equal (VStr "user") (VStr "user"))) with false
      by reflexivity.
    rewrite get_dict, Hus. cbn [default Py.bind].
    rewrite get_dict, Hid. cbn [default Py.bind].
    rewrite Htr, Hnew. cbn [negb orb].
    rewrite (user_data_of_typed parse today d uid photos urls b Hph Hurls Hbio).
    cbn [Py.bind]. eexists. split; [reflexivity|]. split; reflexivity.
  - intros parse today file. cbv zeta. repeat split; reflexivity.
Qed.

Lemma photo_count_and_urls_witness :
  let d := [("_id", VStr "u1");
            ("photos", VList [VDict [("url", VStr "a")];
                              VDict [];
                              VDict [("url", VStr "b")]])] in
  let e := [("type", VStr "user"); ("user", VDict d)] in
  Forall2 photo_url
    [VDict [("url", VStr "a")]; VDict []; VDict [("url", VStr "b")]]
    ["a"; ""; "b"]
  /\ bio_text d ""
  /\ exists u,
      extract_user Iso.parse (on 2024 6 14) [] (VDict e) = Ok (Some u)
      /\ photo_count u = 3%nat
      /\ photo_urls u = "a | b".
Proof.
  cbv zeta.
  assert (F : Forall2 photo_url
                [VDict [("url", VStr "a")]; VDict []; VDict [("url", VStr "b")]]
                ["a"; ""; "b"]).
  { constructor; [apply photo_with_url; reflexivity|].
    constructor; [apply photo_without_url; reflexivity|].
    constructor; [apply photo_with_url; reflexivity|].
    constructor. }
  assert (B : bio_text
                [("_id", VStr "u1");
                 ("photos", VList [VDict [("url", VStr "a")];
                                   VDict [];
                                   VDict [("url", VStr "b")]])] "").
  { apply bio_absent. reflexivity. }
  split; [exact F|]. split; [exact B|].
  exact (proj1 photo_count_and_urls Iso.parse (on 2024 6 14) []
           [("type", VStr "user");
            ("user",
             VDict [("_id", VStr "u1");
                    ("photos", VList [VDict [("url", VStr "a")];
                                      VDict [];
                                      VDict [("url", VStr "b")]])])]
           [("_id", VStr "u1");
            ("photos", VList [VDict [("url", VStr "a")];
                              VDict [];
                              VDict [("url", VStr "b")]])]
           (VStr "u1")
           [VDict [("url", VStr "a")]; VDict []; VDict [("url", VStr "b")]]
           ["a"; ""; "b"] ""
           eq_refl eq_refl eq_refl eq_refl eq_refl eq_refl F B).
Defined.

(** ** One row per user *)

Lemma distinct_ids_snoc rows u :
  distinct_ids rows ->
  existsb (fun v => equal (user_id v) (user_id u)) rows = false ->
  distinct_ids (rows ++ [u]).
Proof.
  unfold distinct_ids.
  induction 1 as [|a rows Ha Hrows IH]; intros E; simpl in *.
  - repeat constructor.
  - apply orb_false_iff in E. destruct E as [E1 E2].
    constructor.
    + apply Forall_app. split; [exact Ha|]. constructor; [exact E1|constructor].
    + apply IH. exact E2.
Qed.

Lemma distinct_ids_prefix rows rest :
  distinct_ids (rows ++ rest) -> distinct_ids rows.
Proof.
  unfold distinct_ids.
  induction rows as [|a rows IH]; intros H; simpl in *.
  - constructor.
  - inversion H as [|? ? Ha Hr]; subst.
    constructor.
    + apply Forall_app in Ha. tauto.
    + apply IH. exact Hr.
Qed.

Lemma distinct_ids_once rows s :
  distinct_ids rows -> (List.length (filter (has_id s) rows) <= 1)%nat.
Proof.
  unfold distinct_ids.
  induction 1 as [|a rows Ha _ IH]; simpl; [lia|].
  destruct (has_id s a) eqn:A; [|exact IH].
  assert (N : filter (has_id s) rows = []).
  { clear IH. induction rows as [|b rows IHr]; [reflexivity|].
    inversion Ha as [|? ? Hb Hrest]; subst. simpl.
    destruct (has_id s b) eqn:B; [|apply IHr; exact Hrest].
    unfold has_id in A, B.
    destruct (user_id a) as [| | |ta| |]; try discriminate.
    destruct (user_id b) as [| | |tb| |]; try discriminate.
    apply String.eqb_eq in A, B. subst. simpl in Hb.
    rewrite String.eqb_refl in Hb. discriminate. }
  rewrite N. simpl. lia.
Qed.

(** What the [for] loop does to the collection: it appends, as many rows
    as it counts, and keeps the ids distinct. *)
Lemma extract_loop_appends parse today results :
  forall collected found,
  exists added,
    fst (extract_loop parse today results collected found) = collected ++ added
    /\ (forall n,
           snd (extract_loop parse today results collected found) = Ok n ->
           n = (found + List.length added)%nat)
    /\ (distinct_ids collected -> distinct_ids (collected ++ added)).
Proof.
  induction results as [|result rest IH]; intros collected found; simpl.
  - exists []. rewrite app_nil_r. repeat split; auto.
    intros n H. inversion H. simpl. lia.
  - destruct (extract_user parse today collected result) as [[u|]|e] eqn:E.
    + destruct (IH (collected ++ [u]) (S found)) as [added [H1 [H2 H3]]].
      exists (u :: added).
      replace (collected ++ u :: added) with ((collected ++ [u]) ++ added)
        by (rewrite <- app_assoc; reflexivity).
      split; [exact H1|]. split.
      * intros n Hn. apply H2 in Hn. simpl. lia.
      * intros D. apply H3. apply distinct_ids_snoc; [exact D|].
        apply (extract_user_fresh _ _ _ _ _ E).
    + apply IH.
    + exists []. rewrite app_nil_r. simpl. repeat split; auto.
      intros n H. discriminate.
Qed.

Lemma extract_users_appends parse today data s :
  exists added,
    users_collected (fst (extract_users_from_response parse today data s))
    = users_collected s ++ added
    /\ request_count (fst (extract_users_from_response parse today data s))
       = request_count s
    /\ csv_filename (fst (extract_users_from_response parse today data s))
       = csv_filename s
    /\ csv_rows (fst (extract_users_from_response parse today data s))
       = csv_rows s
    /\ (forall n,
           snd (extract_users_from_response parse today data s) = Ok n ->
           n = List.length added)
    /\ (distinct_ids (users_collected s) ->
        distinct_ids (users_collected s ++ added)).
Proof.
  unfold extract_users_from_response.
  assert (Z0 : exists added : list user_data,
             users_collected s = users_collected s ++ added
             /\ request_count s = request_count s
             /\ csv_filename s = csv_filename s
             /\ csv_rows s = csv_rows s
             /\ (forall n : nat, @Ok nat 0%nat = Ok n -> n = List.length added)
             /\ (distinct_ids (users_collected s) ->
                 distinct_ids (users_collected s ++ added))).
  { exists []. rewrite app_nil_r. repeat split; auto.
    intros n H. inversion H. reflexivity. }
  assert (ZE : forall e, exists added : list user_data,
             users_collected s = users_collected s ++ added
             /\ request_count s = request_count s
             /\ csv_filename s = csv_filename s
             /\ csv_rows s = csv_rows s
             /\ (forall n : nat, @Raise nat e = Ok n -> n = List.length added)
             /\ (distinct_ids (users_collected s) ->
                 distinct_ids (users_collected s ++ added))).
  { intros e. exists []. rewrite app_nil_r. repeat split; auto.
    intros n H. discriminate. }
  destruct (lacks_results data) as [[|]|e]; simpl; [exact Z0| |apply ZE].
  destruct (inner <- getitem data "data";; rs <- getitem inner "results";; iter rs)
    as [results|e]; simpl; [|apply ZE].
  destruct (extract_loop_appends parse today results (users_collected s) 0)
    as [added [H1 [H2 H3]]].
  destruct (extract_loop parse today results (users_collected s) 0)
    as [collected r]; simpl in *.
  exists added. repeat split; auto.
Qed.

Lemma state_except_KeyboardInterrupt r :
  state (except_KeyboardInterrupt r) = state r.
Proof.
  unfold except_KeyboardInterrupt.
  destruct (how r) as [|[]|]; reflexivity.
Qed.

Lemma state_finally block r : state (finally block r) = state r.
Proof.
  unfold finally.
  destruct (how r); try reflexivity; destruct (block (state r)); reflexivity.
Qed.

Lemma state_run parse max_requests env s :
  state (run_continuous_scraping parse max_requests env s)
  = state (scraping_loop parse max_requests env s).
Proof.
  unfold run_continuous_scraping.
  rewrite state_finally, state_except_KeyboardInterrupt. reflexivity.
Qed.

(** The loop keeps the ids distinct, and the file never holds more than
    the start of the collection. *)
Lemma scraping_loop_rows parse max_requests env :
  forall s,
    csv_rows s = users_collected s ->
    distinct_ids (users_collected s) ->
    distinct_ids (users_collected (state (scraping_loop parse max_requests env s)))
    /\ exists pending,
        users_collected (state (scraping_loop parse max_requests env s))
        = csv_rows (state (scraping_loop parse max_requests env s)) ++ pending.
Proof.
  induction env as [|c env IH]; intros s Hsync Hd; simpl.
  - destruct (while_condition max_requests s); simpl;
      (split; [exact Hd | exists []; rewrite app_nil_r; auto]).
  - destruct (while_condition max_requests s); simpl;
      [|split; [exact Hd | exists []; rewrite app_nil_r; auto]].
    destruct (make_recs_request (net_event c)) as [log [[status body]|e]];
      simpl; [|split; [exact Hd | exists []; rewrite app_nil_r; auto]].
    destruct (not_200 status); simpl;
      [split; [exact Hd | exists []; rewrite app_nil_r; auto]|].
    set (s1 := with_request_count (request_count s + 1) s).
    destruct (extract_users_appends parse (clock c) body s1)
      as [added [Hu [_ [_ [Hc [Hn Hdd]]]]]].
    destruct (extract_users_from_response parse (clock c) body s1)
      as [s2 r2]; simpl in Hu, Hc, Hn, Hdd.
    assert (Hd2 : distinct_ids (users_collected s2)).
    { rewrite Hu. apply Hdd. exact Hd. }
    destruct r2 as [n|e]; simpl.
    + destruct (0 <? n)%nat eqn:Pos; simpl.
      * rewrite Hu, skipn_app, skipn_all, Nat.sub_diag. simpl.
        assert (Hs3 : csv_rows (save_users_to_csv added s2)
                      = users_collected (save_users_to_csv added s2)).
        { unfold save_users_to_csv. destruct added; simpl.
          - rewrite Hc, Hu, app_nil_r. exact Hsync.
          - rewrite Hc, Hu. simpl. rewrite Hsync. reflexivity. }
        assert (Hd3 : distinct_ids
                        (users_collected (save_users_to_csv added s2))).
        { unfold save_users_to_csv. destruct added; exact Hd2. }
        destruct (sleep_interrupted c); simpl.
        -- split; [exact Hd3|]. exists []. rewrite app_nil_r. auto.
        -- apply IH; assumption.
      * split; [exact Hd2|]. exists added.
        rewrite Hu, Hc. simpl. rewrite Hsync. reflexivity.
    + split; [exact Hd2|]. exists added.
      rewrite Hu, Hc. simpl. rewrite Hsync. reflexivity.
Qed.

(** ** Typed pages *)

Lemma photo_objects urls : Forall2 photo_url (map photo_object urls) urls.
Proof.
  induction urls as [|u urls IH]; simpl; constructor; [|exact IH].
  apply photo_with_url. reflexivity.
Qed.

Lemma extract_user_profile parse today collected p :
  p_id p <> "" ->
  extract_user parse today collected (user_result p)
  = Ok (if existsb (fun v => equal (user_id v) (VStr (p_id p))) collected
        then None
        else Some (row parse today p)).
Proof.
  intros Hid.
  unfold extract_user, user_result, user_object.
  rewrite get_dict. cbn [lookup String.eqb Ascii.eqb Bool.eqb default Py.bind].
  replace (negb (equal (VStr "user") (VStr "user"))) with false by reflexivity.
  rewrite get_dict. cbn [lookup String.eqb Ascii.eqb Bool.eqb default Py.bind].
  rewrite get_dict. cbn [lookup String.eqb Ascii.eqb Bool.eqb default Py.bind].
  cbn [truthy]. apply String.eqb_neq in Hid. rewrite Hid. cbn [negb orb].
  destruct (existsb _ collected); [reflexivity|].
  rewrite (user_data_of_typed parse today _ (VStr (p_id p))
             (map photo_object (p_photos p)) (p_photos p) (p_bio p)).
  - cbn [Py.bind]. unfold row. rewrite length_map. reflexivity.
  - reflexivity.
  - apply photo_objects.
  - apply bio_string. reflexivity.
Qed.

Lemma extract_users_page parse today results s :
  extract_users_from_response parse today (page results) s
  = ({| users_collected :=
          fst (extract_loop parse today results (users_collected s) 0);
        request_count := request_count s;
        csv_filename := csv_filename s;
        csv_rows := csv_rows s |},
     snd (extract_loop parse today results (users_collected s) 0)).
Proof.
  unfold extract_users_from_response, page. simpl.
  destruct (extract_loop parse today results (users_collected s) 0).
  reflexivity.
Qed.

(** ** Single passes of the loop *)

(** A pass that has the body [body] to extract from, whatever the
    request returned it for. *)
Lemma scraping_loop_extract parse max_requests c env s log body :
  while_condition max_requests s = true ->
  make_recs_request (net_event c) = (log, Ok (Some 200, body)) ->
  scraping_loop parse max_requests (c :: env) s
  = let s1 := with_request_count (request_count s + 1) s in
    let out1 := MsgRequest (request_count s + 1) :: log in
    let er := extract_users_from_response parse (clock c) body s1 in
    match snd er with
    | Raise e => {| state := fst er; printed := out1; how := Raised e |}
    | Ok n =>
        if (0 <? n)%nat then
          let s3 :=
            save_users_to_csv
              (skipn (List.length (users_collected s))
                 (users_collected (fst er))) (fst er) in
          let out3 :=
            out1 ++ [MsgFound n (List.length (users_collected s3))] in
          if sleep_interrupted c then
            {| state := s3; printed := out3; how := Raised KeyboardInterrupt |}
          else after out3 (scraping_loop parse max_requests env s3)
        else
          {| state := fst er; printed := out1 ++ [MsgNoNewUsers];
             how := Exit STOP_EMPTY_PAGE |}
    end.
Proof.
  intros W M. cbn [scraping_loop]. rewrite W, M.
  cbn [not_200 Z.eqb Pos.eqb negb].
  destruct (extract_users_from_response parse (clock c) body
              (with_request_count (request_count s + 1) s)) as [s2 [n|e]];
    reflexivity.
Qed.

(** A pass whose request comes back with another status than 200. *)
Lemma scraping_loop_status parse max_requests code text j today i env s :
  while_condition max_requests s = true ->
  code <> 200 ->
  scraping_loop parse max_requests
    ({| net_event := Reply code text j; clock := today;
        sleep_interrupted := i |} :: env) s
  = {| state := with_request_count (request_count s + 1) s;
       printed := [MsgRequest (request_count s + 1);
                   MsgNon200 (Some code) (VStr text)];
       how := Exit STOP_NON_200 |}.
Proof.
  intros W C. cbn [scraping_loop net_event make_recs_request]. rewrite W.
  apply Z.eqb_neq in C. rewrite C. cbn [not_200]. rewrite C. reflexivity.
Qed.

(** ** The three-page run *)

Lemma equal_row_id parse today p s :
  equal (user_id (row parse today p)) (VStr s) = String.eqb (p_id p) s.
Proof. reflexivity. Qed.

(** C2: two new users on page 1, one new user and a duplicate of a user
    of page 1 on page 2, status 429 on page 3: the run stops at request 3
    on the status, three rows are collected and written, and the summary
    reports 3 requests and 3 users. *)
Theorem three_page_run parse pa pb pc pd t1 t2 t3 x1 x2 x3 j file rest :
  p_id pa <> "" -> p_id pb <> "" -> p_id pc <> "" ->
  p_id pa <> p_id pb -> p_id pa <> p_id pc -> p_id pb <> p_id pc ->
  p_id pd = p_id pa ->
  let env :=
    served t1 x1 (page [user_result pa; user_result pb])
    :: served t2 x2 (page [user_result pc; user_result pd])
    :: {| net_event := Reply 429 x3 j; clock := t3;
          sleep_interrupted := false |}
    :: rest in
  let r := run_continuous_scraping parse None env (TinderScraper file) in
  let rows := [row parse t1 pa; row parse t1 pb; row parse t2 pc] in
  how r = Exit STOP_NON_200
  /\ request_count (state r) = 3
  /\ users_collected (state r) = rows
  /\ csv_rows (state r) = rows
  /\ printed r =
     [MsgRequest 1; MsgFound 2 2;
      MsgRequest 2; MsgFound 1 3;
      MsgRequest 3; MsgNon200 (Some 429) (VStr x3);
      MsgTotalRequests 3; MsgTotalUsers 3; MsgCsvFile file;
      MsgSampleHeader;
      MsgSample 1 (name (row parse t1 pa))
        (VStr (String.substring 0 8 (p_id pa)))
        (age (row parse t1 pa)) (photo_count (row parse t1 pa));
      MsgSample 2 (name (row parse t1 pb))
        (VStr (String.substring 0 8 (p_id pb)))
        (age (row parse t1 pb)) (photo_count (row parse t1 pb));
      MsgSample 3 (name (row parse t2 pc))
        (VStr (String.substring 0 8 (p_id pc)))
        (age (row parse t2 pc)) (photo_count (row parse t2 pc))].
Proof.
  intros Ha Hb Hc Hab Hac Hbc Hda env r rows.
  assert (E1 : forall s, users_collected s = [] ->
             extract_users_from_response parse t1
               (page [user_result pa; user_result pb]) s
             = ({| users_collected := [row parse t1 pa; row parse t1 pb];
                   request_count := request_count s;
                   csv_filename := csv_filename s;
                   csv_rows := csv_rows s |}, Ok 2%nat)).
  { intros s Hs. rewrite extract_users_page, Hs.
    cbn [extract_loop].
    rewrite (extract_user_profile parse t1 [] pa Ha). cbn [existsb].
    cbn [app].
    rewrite (extract_user_profile parse t1 _ pb Hb). cbn [existsb].
    rewrite equal_row_id.
    apply String.eqb_neq in Hab. rewrite Hab. cbn [orb app fst snd].
    reflexivity. }
  assert (E2 : forall s,
             users_collected s = [row parse t1 pa; row parse t1 pb] ->
             extract_users_from_response parse t2
               (page [user_result pc; user_result pd]) s
             = ({| users_collected := rows;
                   request_count := request_count s;
                   csv_filename := csv_filename s;
                   csv_rows := csv_rows s |}, Ok 1%nat)).
  { intros s Hs. rewrite extract_users_page, Hs.
    cbn [extract_loop].
    rewrite (extract_user_profile parse t2 _ pc Hc). cbn [existsb].
    rewrite !equal_row_id.
    apply String.eqb_neq in Hac, Hbc. rewrite Hac, Hbc. cbn [orb app].
    rewrite (extract_user_profile parse t2 _ pd); [|rewrite Hda; exact Ha].
    cbn [existsb]. rewrite !equal_row_id, Hda, String.eqb_refl.
    cbn [orb fst snd]. reflexivity. }
  assert (L : scraping_loop parse None env (TinderScraper file)
             = {| state := {| users_collected := rows;
                              request_count := 3;
                              csv_filename := file;
                              csv_rows := rows |};
                  printed := [MsgRequest 1; MsgFound 2 2;
                              MsgRequest 2; MsgFound 1 3;
                              MsgRequest 3; MsgNon200 (Some 429) (VStr x3)];
                  how := Exit STOP_NON_200 |}).
  { unfold env.
    rewrite (scraping_loop_extract parse None _ _ _ []
               (page [user_result pa; user_result pb]));
      [|reflexivity|reflexivity].
    cbv zeta. cbn [served clock sleep_interrupted].
    rewrite E1 by reflexivity.
    cbn [fst snd Nat.ltb Nat.leb users_collected TinderScraper
         with_request_count List.length skipn save_users_to_csv
         request_count csv_filename csv_rows app].
    rewrite (scraping_loop_extract parse None _ _ _ []
               (page [user_result pc; user_result pd]));
      [|reflexivity|reflexivity].
    cbv zeta. cbn [clock sleep_interrupted].
    rewrite E2 by reflexivity.
    cbn [fst snd Nat.ltb Nat.leb users_collected
         with_request_count List.length skipn save_users_to_csv
         request_count csv_filename csv_rows app].
    rewrite scraping_loop_status; [|reflexivity|discriminate].
    reflexivity. }
  unfold r, run_continuous_scraping. rewrite L.
  repeat split; reflexivity.
Qed.

Lemma three_page_run_witness :
  let pa := {| p_id := "5f3a91c2aa"; p_name := "Ann"; p_bio := "";
               p_birth_date := "2000-06-15T00:00:00.000Z";
               p_photos := ["a"; "b"] |} in
  let pb := {| p_id := "60b7d1e4bb"; p_name := "Bea"; p_bio := "hi";
               p_birth_date := ""; p_photos := [] |} in
  let pc := {| p_id := "61c8e2f5cc"; p_name := "Cleo"; p_bio := "";
               p_birth_date := "1999-01-01"; p_photos := ["c"] |} in
  let today := on 2024 6 14 in
  let r :=
    run_continuous_scraping Iso.parse None
      [served today "" (page [user_result pa; user_result pb]);
       served today "" (page [user_result pc; user_result pa]);
       {| net_event := Reply 429 "Too Many Requests" None; clock := today;
          sleep_interrupted := false |}]
      (TinderScraper "tinder_users_20240614_120000.csv") in
  p_id pa <> p_id pb
  /\ how r = Exit STOP_NON_200
  /\ request_count (state r) = 3
  /\ List.length (csv_rows (state r)) = 3%nat
  /\ map age (users_collected (state r)) = [VInt 23; VStr "N/A"; VInt 25].
Proof.
  cbv zeta. split; [discriminate|].
  pose proof
    (three_page_run Iso.parse
       {| p_id := "5f3a91c2aa"; p_name := "Ann"; p_bio := "";
          p_birth_date := "2000-06-15T00:00:00.000Z";
          p_photos := ["a"; "b"] |}
       {| p_id := "60b7d1e4bb"; p_name := "Bea"; p_bio := "hi";
          p_birth_date := ""; p_photos := [] |}
       {| p_id := "61c8e2f5cc"; p_name := "Cleo"; p_bio := "";
          p_birth_date := "1999-01-01"; p_photos := ["c"] |}
       {| p_id := "5f3a91c2aa"; p_name := "Ann"; p_bio := "";
          p_birth_date := "2000-06-15T00:00:00.000Z";
          p_photos := ["a"; "b"] |}
       (on 2024 6 14) (on 2024 6 14) (on 2024 6 14)
       "" "" "Too Many Requests" None
       "tinder_users_20240614_120000.csv" []
       ltac:(discriminate) ltac:(discriminate) ltac:(discriminate)
       ltac:(discriminate) ltac:(discriminate) ltac:(discriminate)
       eq_refl) as [H1 [H2 [H3 [H4 _]]]].
  split; [exact H1|]. split; [exact H2|].
  split; [rewrite H4; reflexivity|].
  rewrite H3. reflexivity.
Defined.

(** ** Bodies without the results *)

Lemma summary_new_scraper s :
  users_collected s = [] ->
  summary s = ([MsgTotalRequests (request_count s); MsgTotalUsers 0;
                MsgCsvFile (csv_filename s)], None).
Proof.
  intros H. unfold summary. rewrite H. reflexivity.
Qed.

(** C3: a reply with status 200 whose body is not JSON comes back from
    [make_recs_request] as [(200, text)]; the run of a new scraper then
    stops as an empty page when ["data"] does not occur in the text, and
    ends with an uncaught [TypeError] when it does, as on the body
    ["<html><body>No data available</body></html>"]. *)
Theorem malformed_body parse text today i env file :
  let c := {| net_event := Reply 200 text None; clock := today;
              sleep_interrupted := i |} in
  let r := run_continuous_scraping parse None (c :: env)
             (TinderScraper file) in
  make_recs_request (net_event c)
  = ([MsgParseFailed], Ok (Some 200, VStr text))
  /\ how r = (if str_contains "data" text
              then Raised TypeError
              else Exit STOP_EMPTY_PAGE)
  /\ (text = "<html><body>No data available</body></html>" ->
      how r = Raised TypeError
      /\ printed r = [MsgRequest 1; MsgParseFailed; MsgTotalRequests 1;
                      MsgTotalUsers 0; MsgCsvFile file]).
Proof.
  intros c r.
  assert (L : scraping_loop parse None (c :: env) (TinderScraper file)
              = if str_contains "data" text
                then {| state := with_request_count 1 (TinderScraper file);
                        printed := [MsgRequest 1; MsgParseFailed];
                        how := Raised TypeError |}
                else {| state := with_request_count 1 (TinderScraper file);
                        printed := [MsgRequest 1; MsgParseFailed;
                                    MsgNoNewUsers];
                        how := Exit STOP_EMPTY_PAGE |}).
  { rewrite (scraping_loop_extract parse None c env _ [MsgParseFailed]
               (VStr text)); [|reflexivity|reflexivity].
    cbv zeta.
    unfold extract_users_from_response, lacks_results, contains.
    cbn [Py.bind]. destruct (str_contains "data" text); reflexivity. }
  split; [reflexivity|]. split.
  - unfold r, run_continuous_scraping. rewrite L.
    destruct (str_contains "data" text); reflexivity.
  - intros ->. unfold r, run_continuous_scraping. rewrite L.
    split; reflexivity.
Qed.

Lemma malformed_body_witness :
  let r :=
    run_continuous_scraping Iso.parse None
      [{| net_event :=
            Reply 200 "<html><body>No data available</body></html>" None;
          clock := on 2024 6 14;
          sleep_interrupted := false |}]
      (TinderScraper "tinder_users_20240614_120000.csv") in
  how r = Raised TypeError
  /\ printed r = [MsgRequest 1; MsgParseFailed; MsgTotalRequests 1;
                  MsgTotalUsers 0;
                  MsgCsvFile "tinder_users_20240614_120000.csv"].
Proof.
  exact (proj2 (proj2 (malformed_body Iso.parse
                         "<html><body>No data available</body></html>"
                         (on 2024 6 14) false []
                         "tinder_users_20240614_120000.csv")) eq_refl).
Defined.

(** X21: on a page object without the key ['data'], or with a ['data']
    (a dict, a list or a string) in which ['results'] does not occur, [extract_users_from_response]
    returns 0 and leaves the scraper as it was, and the loop stops on the
    pass as an empty page, whatever the environment holds after it. *)
Theorem page_without_results parse today d s :
  lookup "data" d = None
  \/ (exists inner,
         lookup "data" d = Some inner
         /\ contains "results" inner = Ok false) ->
  extract_users_from_response parse today (VDict d) s = (s, Ok 0%nat)
  /\ (forall max_requests text i env,
         while_condition max_requests s = true ->
         scraping_loop parse max_requests
           ({| net_event := Reply 200 text (Some (VDict d)); clock := today;
               sleep_interrupted := i |} :: env) s
         = {| state := with_request_count (request_count s + 1) s;
              printed := [MsgRequest (request_count s + 1); MsgNoNewUsers];
              how := Exit STOP_EMPTY_PAGE |})
  /\ (forall max_requests text i env,
         while_condition max_requests s = true ->
         users_collected s = [] ->
         how (run_continuous_scraping parse max_requests
                ({| net_event := Reply 200 text (Some (VDict d));
                    clock := today; sleep_interrupted := i |} :: env) s)
         = Exit STOP_EMPTY_PAGE).
Proof.
  intros H.
  assert (L : lacks_results (VDict d) = Ok true).
  { unfold lacks_results, contains at 1, getitem. cbn [Py.bind].
    destruct H as [H | [inner [H1 H2]]].
    - rewrite H. reflexivity.
    - rewrite H1. cbn [negb Py.bind]. rewrite H2. reflexivity. }
  assert (E : forall s', extract_users_from_response parse today (VDict d) s'
                         = (s', Ok 0%nat)).
  { intros s'. unfold extract_users_from_response. rewrite L. reflexivity. }
  assert (S : forall max_requests text i env,
             while_condition max_requests s = true ->
             scraping_loop parse max_requests
               ({| net_event := Reply 200 text (Some (VDict d));
                   clock := today; sleep_interrupted := i |} :: env) s
             = {| state := with_request_count (request_count s + 1) s;
                  printed := [MsgRequest (request_count s + 1); MsgNoNewUsers];
                  how := Exit STOP_EMPTY_PAGE |}).
  { intros max_requests text i env W.
    rewrite (scraping_loop_extract parse max_requests _ env s [] (VDict d) W);
      [|reflexivity].
    cbv zeta. cbn [clock]. rewrite E. reflexivity. }
  split; [apply E|]. split; [exact S|].
  intros max_requests text i env W U.
  unfold run_continuous_scraping. rewrite S by exact W.
  unfold except_KeyboardInterrupt, finally. cbn [how state].
  rewrite summary_new_scraper by exact U. reflexivity.
Qed.

Lemma page_without_results_witness :
  let d := [("meta", VDict [("status", VInt 200)]);
            ("data", VDict [("timeout", VInt 1800000)])] in
  let s := TinderScraper "tinder_users_20240614_120000.csv" in
  contains "results" (VDict [("timeout", VInt 1800000)]) = Ok false
  /\ extract_users_from_response Iso.parse (on 2024 6 14) (VDict d) s
     = (s, Ok 0%nat).
Proof.
  cbv zeta. split; [reflexivity|].
  apply (page_without_results Iso.parse (on 2024 6 14)).
  right. exists (VDict [("timeout", VInt 1800000)]).
  split; reflexivity.
Defined.

(** Under ['data'] a value that is no dict, list or string makes the test
    itself raise. *)
Remark page_with_null_data parse today s :
  extract_users_from_response parse today (VDict [("data", VNone)]) s
  = (s, Raise TypeError).
Proof. reflexivity. Qed.

(** ** The request limit *)

Lemma requests_issued_app out1 out2 :
  requests_issued (out1 ++ out2)
  = (requests_issued out1 + requests_issued out2)%nat.
Proof.
  unfold requests_issued. rewrite filter_app, length_app. reflexivity.
Qed.

Lemma requests_issued_request n out :
  requests_issued (MsgRequest n :: out) = S (requests_issued out).
Proof. reflexivity. Qed.

Ltac count_requests :=
  unfold requests_issued in *; simpl;
  rewrite ?filter_app, ?length_app; simpl; lia.

Lemma make_recs_request_log n :
  requests_issued (fst (make_recs_request n)) = 0%nat.
Proof.
  destruct n as [code text [body|]| |]; simpl; try reflexivity;
    destruct (code =? 200); reflexivity.
Qed.

(** The counter goes up by one for each request issued. *)
Lemma scraping_loop_counts parse max_requests env :
  forall s,
    request_count (state (scraping_loop parse max_requests env s))
    = request_count s
      + Z.of_nat (requests_issued
                    (printed (scraping_loop parse max_requests env s))).
Proof.
  induction env as [|c env IH]; intros s; simpl.
  - destruct (while_condition max_requests s); simpl; lia.
  - destruct (while_condition max_requests s); simpl; [|lia].
    pose proof (make_recs_request_log (net_event c)) as Hlog.
    destruct (make_recs_request (net_event c)) as [log [[status body]|e]];
      simpl in Hlog; simpl; [|count_requests].
    destruct (not_200 status); simpl; [count_requests|].
    set (s1 := with_request_count (request_count s + 1) s).
    destruct (extract_users_appends parse (clock c) body s1)
      as [added [_ [Hrc _]]].
    destruct (extract_users_from_response parse (clock c) body s1)
      as [s2 r2]; simpl in Hrc.
    destruct r2 as [n|e]; simpl; [|rewrite Hrc; count_requests].
    assert (Hs3 : forall b, request_count (save_users_to_csv b s2)
                            = request_count s + 1).
    { intros b. unfold save_users_to_csv. destruct b; exact Hrc. }
    destruct (0 <? n)%nat; simpl; [|rewrite Hrc; count_requests].
    destruct (sleep_interrupted c); simpl.
    + rewrite Hs3. count_requests.
    + rewrite IH, Hs3. count_requests.
Qed.

Lemma while_condition_limit N s :
  N <> 0 ->
  while_condition (Some N) s = (request_count s <? N).
Proof.
  intros H. unfold while_condition.
  apply Z.eqb_neq in H. rewrite H. reflexivity.
Qed.

(** With a limit other than 0 the counter never passes the limit, the
    loop leaves through the limit only with the counter at the limit or
    beyond, and it ends when the environment is long enough. *)
Lemma scraping_loop_limit parse N env :
  N <> 0 ->
  forall s,
    request_count (state (scraping_loop parse (Some N) env s))
    <= Z.max (request_count s) N
    /\ (how (scraping_loop parse (Some N) env s) = Exit STOP_REQUEST_LIMIT ->
        N <= request_count (state (scraping_loop parse (Some N) env s)))
    /\ (N - request_count s <= Z.of_nat (List.length env) ->
        how (scraping_loop parse (Some N) env s) <> Running).
Proof.
  intros HN.
  induction env as [|c env IH]; intros s; cbn [scraping_loop];
    rewrite (while_condition_limit N s HN);
    destruct (request_count s <? N) eqn:W;
    try (apply Z.ltb_ge in W; cbn [state how];
         repeat split; [lia | intros _; lia | discriminate]).
  - apply Z.ltb_lt in W. cbn [state how List.length].
    repeat split; [lia | discriminate | intros; lia].
  - apply Z.ltb_lt in W.
    destruct (make_recs_request (net_event c)) as [log [[status body]|e]];
      [|cbn [state how request_count with_request_count];
        repeat split; [lia | discriminate | discriminate]].
    destruct (not_200 status);
      [cbn [state how request_count with_request_count];
       repeat split; [lia | discriminate | discriminate]|].
    set (s1 := with_request_count (request_count s + 1) s).
    destruct (extract_users_appends parse (clock c) body s1)
      as [added [_ [Hrc _]]].
    destruct (extract_users_from_response parse (clock c) body s1)
      as [s2 r2]; simpl in Hrc.
    destruct r2 as [n|e];
      [|cbn [state how]; rewrite Hrc;
        repeat split; [lia | discriminate | discriminate]].
    assert (Hs3 : forall b, request_count (save_users_to_csv b s2)
                            = request_count s + 1).
    { intros b. unfold save_users_to_csv. destruct b; exact Hrc. }
    destruct (0 <? n)%nat;
      [|cbn [state how]; rewrite Hrc;
        repeat split; [lia | discriminate | discriminate]].
    destruct (sleep_interrupted c).
    + cbn [state how]. rewrite Hs3.
      repeat split; [lia | discriminate | discriminate].
    + cbn [state how after].
      destruct (IH (save_users_to_csv
                      (skipn (List.length (users_collected s1))
                         (users_collected s2)) s2)) as [H1 [H2 H3]].
      rewrite Hs3 in H1, H3.
      split; [lia|]. split; [exact H2|].
      intros L. apply H3. cbn [List.length] in L. lia.
Qed.

Lemma sample_no_request users :
  forall i, requests_issued (fst (sample i users)) = 0%nat.
Proof.
  induction users as [|u users IH]; intros i; simpl; [reflexivity|].
  destruct (slice_to 8 (user_id u)); [|reflexivity].
  specialize (IH (S i)).
  destruct (sample (S i) users) as [out e]. exact IH.
Qed.

Lemma summary_no_request s : requests_issued (fst (summary s)) = 0%nat.
Proof.
  unfold summary.
  destruct (users_collected s) as [|u users] eqn:U; [reflexivity|].
  pose proof (sample_no_request (firstn 5 (u :: users)) 0) as H.
  destruct (sample 0 (firstn 5 (u :: users))) as [out [e|]];
    simpl in H; cbn [fst]; [count_requests|].
  destruct (5 <? List.length (u :: users))%nat; count_requests.
Qed.

(** The summary and the handler print no request line. *)
Lemma requests_issued_run parse max_requests env s :
  requests_issued (printed (run_continuous_scraping parse max_requests env s))
  = requests_issued (printed (scraping_loop parse max_requests env s)).
Proof.
  unfold run_continuous_scraping, finally, except_KeyboardInterrupt.
  destruct (scraping_loop parse max_requests env s) as [st out h].
  pose proof (summary_no_request st) as H.
  destruct h as [x|[]|]; cbn [how state printed]; try reflexivity;
    destruct (summary st) as [out' e]; cbn [fst printed] in *;
    rewrite ?requests_issued_app, H; unfold requests_issued; simpl; lia.
Qed.

(** How the run ends, from how the loop ends. *)
Lemma how_run parse max_requests env s :
  how (run_continuous_scraping parse max_requests env s)
  = match how (scraping_loop parse max_requests env s) with
    | Running => Running
    | Exit x =>
        match snd (summary (state (scraping_loop parse max_requests env s)))
        with
        | Some e => Raised e
        | None => Exit x
        end
    | Raised e0 =>
        match snd (summary (state (scraping_loop parse max_requests env s)))
        with
        | Some e => Raised e
        | None =>
            match e0 with
            | KeyboardInterrupt => Exit STOP_INTERRUPTED
            | _ => Raised e0
            end
        end
    end.
Proof.
  unfold run_continuous_scraping, finally, except_KeyboardInterrupt.
  destruct (scraping_loop parse max_requests env s) as [st out h].
  destruct h as [x|[]|]; cbn [how state]; try reflexivity;
    destruct (summary st) as [out' [e|]]; reflexivity.
Qed.

(** With the limit 0 a request is issued all the same: the bound of C8
    fails there. *)
Lemma request_limit_zero :
  ~ (forall parse N env file,
        Z.of_nat
          (requests_issued
             (printed (run_continuous_scraping parse (Some N) env
                         (TinderScraper file)))) <= N).
Proof.
  intros H.
  specialize (H Iso.parse 0
                [{| net_event := Reply 429 "Too Many Requests" None;
                    clock := on 2024 6 14;
                    sleep_interrupted := false |}]
                "tinder_users_20240614_120000.csv").
  vm_compute in H. apply H. reflexivity.
Qed.

(** ** The limit 0 *)

Lemma scraping_loop_zero parse env :
  forall s,
    scraping_loop parse (Some 0) env s = scraping_loop parse None env s.
Proof.
  induction env as [|c env IH]; intros s; [reflexivity|].
  cbn [scraping_loop while_condition Z.eqb orb].
  destruct (make_recs_request (net_event c)) as [log [[status body]|e]];
    [|reflexivity].
  destruct (not_200 status); [reflexivity|].
  destruct (extract_users_from_response parse (clock c) body
              (with_request_count (request_count s + 1) s)) as [s2 [n|e]];
    [|reflexivity].
  destruct (0 <? n)%nat; [|reflexivity].
  destruct (sleep_interrupted c); [reflexivity|].
  rewrite IH. reflexivity.
Qed.

Lemma scraping_loop_no_limit parse env :
  forall s,
    how (scraping_loop parse None env s) <> Exit STOP_REQUEST_LIMIT.
Proof.
  induction env as [|c env IH]; intros s; [discriminate|].
  cbn [scraping_loop while_condition].
  destruct (make_recs_request (net_event c)) as [log [[status body]|e]];
    [|discriminate].
  destruct (not_200 status); [discriminate|].
  destruct (extract_users_from_response parse (clock c) body
              (with_request_count (request_count s + 1) s)) as [s2 [n|e]];
    [|discriminate].
  destruct (0 <? n)%nat; [|discriminate].
  destruct (sleep_interrupted c); [discriminate|].
  apply IH.
Qed.

(** C10: [max_requests = 0] runs as [max_requests = None] does: the same
    requests, the same rows, the same output; the run never leaves
    through the limit, and the first request is issued as soon as the
    environment answers. *)
Theorem zero_is_no_limit parse env s :
  run_continuous_scraping parse (Some 0) env s
  = run_continuous_scraping parse None env s
  /\ how (run_continuous_scraping parse (Some 0) env s)
     <> Exit STOP_REQUEST_LIMIT
  /\ (forall c,
         (1 <= requests_issued
                 (printed (run_continuous_scraping parse (Some 0%Z)
                             (c :: env) s)))%nat).
Proof.
  split; [|split].
  - unfold run_continuous_scraping. rewrite scraping_loop_zero. reflexivity.
  - rewrite how_run, scraping_loop_zero.
    pose proof (scraping_loop_no_limit parse env s) as N.
    destruct (how (scraping_loop parse None env s)) as [x|e|].
    + destruct (snd (summary _)); [discriminate|exact N].
    + destruct (snd (summary _)); [discriminate|]. destruct e; discriminate.
    + discriminate.
  - intros c. rewrite requests_issued_run.
    cbn [scraping_loop while_condition Z.eqb orb].
    destruct (make_recs_request (net_event c)) as [log [[status body]|e]];
      [|cbn [printed]; count_requests].
    destruct (not_200 status); [cbn [printed]; count_requests|].
    destruct (extract_users_from_response parse (clock c) body
                (with_request_count (request_count s + 1) s)) as [s2 [n|e]];
      [|cbn [printed]; count_requests].
    destruct (0 <? n)%nat; [|cbn [printed]; count_requests].
    destruct (sleep_interrupted c); cbn [printed after]; count_requests.
Qed.

(** ** The summary *)

Lemma sample_strings rows :
  Forall string_id rows ->
  forall i, sample i rows = (map sample_line (numbered (S i) rows), None).
Proof.
  induction 1 as [|u rows [id Hu] _ IH]; intros i; simpl; [reflexivity|].
  rewrite Hu. cbn [slice_to]. rewrite IH.
  unfold sample_line at 2, id_prefix. cbn [fst snd]. rewrite Hu.
  reflexivity.
Qed.

Lemma summary_totals s :
  exists rest, fst (summary s) = totals s ++ rest.
Proof.
  unfold summary.
  destruct (users_collected s) as [|u users] eqn:U.
  - exists []. unfold totals. rewrite U. reflexivity.
  - destruct (sample 0 (firstn 5 (u :: users))) as [out [e|]];
      eexists; unfold totals; rewrite U; cbn [fst]; reflexivity.
Qed.

Lemma summary_strings s :
  Forall string_id (firstn 5 (users_collected s)) ->
  summary s = (totals s ++ preview (users_collected s), None).
Proof.
  intros H. unfold summary, preview, totals.
  destruct (users_collected s) as [|u users] eqn:U;
    [rewrite app_nil_r; reflexivity|].
  rewrite (sample_strings _ H 0). reflexivity.
Qed.

(** What the run prints once the loop is over: the output of the loop,
    the line of the handler after Ctrl+C, and the summary. *)
Lemma printed_run parse max_requests env s :
  how (scraping_loop parse max_requests env s) <> Running ->
  printed (run_continuous_scraping parse max_requests env s)
  = printed (scraping_loop parse max_requests env s)
    ++ match how (scraping_loop parse max_requests env s) with
       | Raised KeyboardInterrupt => [MsgInterrupted]
       | _ => []
       end
    ++ fst (summary (state (scraping_loop parse max_requests env s))).
Proof.
  unfold run_continuous_scraping, finally, except_KeyboardInterrupt.
  destruct (scraping_loop parse max_requests env s) as [st out h].
  cbn [how state printed]. intros Hr.
  destruct h as [x|[]|]; cbn [how state printed];
    try (exfalso; apply Hr; reflexivity);
    destruct (summary st) as [out' e]; cbn [fst printed];
    rewrite <- ?app_assoc; reflexivity.
Qed.

(** C9: once the loop is over, by whichever exit, the run has printed
    the summary after everything else: the counter of requests, which is
    the number of requests issued, the number of rows collected and the
    name of the file; and with string ids in the rows it has printed
    after them the preview of the first five rows and has returned. *)
Theorem summary_on_every_exit parse max_requests env s :
  let l := scraping_loop parse max_requests env s in
  let r := run_continuous_scraping parse max_requests env s in
  how l <> Running ->
  state r = state l
  /\ request_count (state r)
     = request_count s + Z.of_nat (requests_issued (printed r))
  /\ (exists rest,
         printed r
         = printed l
           ++ match how l with
              | Raised KeyboardInterrupt => [MsgInterrupted]
              | _ => []
              end
           ++ totals (state r) ++ rest)
  /\ (Forall string_id (firstn 5 (users_collected (state r))) ->
      printed r
      = printed l
        ++ match how l with
           | Raised KeyboardInterrupt => [MsgInterrupted]
           | _ => []
           end
        ++ totals (state r) ++ preview (users_collected (state r))
      /\ (how l = Exit STOP_NON_200 -> how r = Exit STOP_NON_200)
      /\ (how l = Exit STOP_EMPTY_PAGE -> how r = Exit STOP_EMPTY_PAGE)
      /\ (how l = Exit STOP_REQUEST_LIMIT -> how r = Exit STOP_REQUEST_LIMIT)
      /\ (how l = Raised KeyboardInterrupt -> how r = Exit STOP_INTERRUPTED)).
Proof.
  intros l r Hl. unfold r, l in *.
  rewrite state_run, requests_issued_run, (printed_run _ _ _ _ Hl), how_run.
  split; [reflexivity|].
  split; [apply scraping_loop_counts|].
  split.
  - destruct (summary_totals (state (scraping_loop parse max_requests env s)))
      as [rest Hrest].
    exists rest. rewrite Hrest. reflexivity.
  - intros Hs. rewrite (summary_strings _ Hs). cbn [fst snd].
    split; [reflexivity|].
    repeat split; intros ->; reflexivity.
Qed.

Lemma summary_on_every_exit_witness :
  let pa := {| p_id := "5f3a91c2aa01"; p_name := "Ann"; p_bio := "";
               p_birth_date := "2000-06-15"; p_photos := ["a"] |} in
  let env := [{| net_event := Reply 200 "" (Some (page [user_result pa]));
                 clock := on 2024 6 14;
                 sleep_interrupted := true |}] in
  let s := TinderScraper "tinder_users_20240614_120000.csv" in
  how (scraping_loop Iso.parse None env s) = Raised KeyboardInterrupt
  /\ printed (run_continuous_scraping Iso.parse None env s)
     = [MsgRequest 1; MsgFound 1 1; MsgInterrupted;
        MsgTotalRequests 1; MsgTotalUsers 1;
        MsgCsvFile "tinder_users_20240614_120000.csv";
        MsgSampleHeader;
        MsgSample 1 (VStr "Ann") (VStr "5f3a91c2") (VInt 23) 1]
  /\ how (run_continuous_scraping Iso.parse None env s)
     = Exit STOP_INTERRUPTED.
Proof.
  cbv zeta. split; [reflexivity|].
  destruct
    (summary_on_every_exit Iso.parse None
       [{| net_event :=
             Reply 200 ""
               (Some (page [user_result
                              {| p_id := "5f3a91c2aa01"; p_name := "Ann";
                                 p_bio := ""; p_birth_date := "2000-06-15";
                                 p_photos := ["a"] |}]));
           clock := on 2024 6 14;
           sleep_interrupted := true |}]
       (TinderScraper "tinder_users_20240614_120000.csv")
       ltac:(vm_compute; discriminate))
    as [_ [_ [_ H]]].
  destruct H as [H1 [_ [_ [_ H2]]]].
  - vm_compute. repeat constructor; eexists; reflexivity.
  - split; [rewrite H1; reflexivity | apply H2; reflexivity].
Defined.

(** With an [_id] that is a number the slice [[:8]] of the preview
    raises: the totals are printed, the preview is not. *)
Remark summary_integer_id file :
  summary {| users_collected :=
               [{| user_id := VInt 7; name := VStr "Ann"; age := VStr "N/A";
                   bio := VStr ""; birth_date := VStr ""; photo_count := 0;
                   photo_urls := "" |}];
             request_count := 1;
             csv_filename := file;
             csv_rows := [] |}
  = ([MsgTotalRequests 1; MsgTotalUsers 1; MsgCsvFile file; MsgSampleHeader],
     Some TypeError).
Proof. reflexivity. Qed.

(** ** Further properties of the extraction *)

Lemma str_replace_length c (r : ascii) s :
  String.length (str_replace c (String r EmptyString) s) = String.length s.
Proof.
  induction s as [|a s IH]; simpl; [reflexivity|].
  destruct (Ascii.eqb a c); simpl; rewrite IH; reflexivity.
Qed.

Lemma str_replace_removes c (r : ascii) s :
  r <> c -> ~ occurs c (str_replace c (String r EmptyString) s).
Proof.
  unfold occurs. intros Hr.
  induction s as [|a s IH]; simpl; [tauto|].
  destruct (Ascii.eqb a c) eqn:E; simpl.
  - intros [H|H]; [exact (Hr H) | exact (IH H)].
  - apply Ascii.eqb_neq in E. intros [H|H]; [exact (E H) | exact (IH H)].
Qed.

Lemma str_replace_keeps_out c c' (r : ascii) s :
  r <> c' -> ~ occurs c' s ->
  ~ occurs c' (str_replace c (String r EmptyString) s).
Proof.
  unfold occurs. intros Hr.
  induction s as [|a s IH]; simpl; [tauto|].
  intros Hs.
  destruct (Ascii.eqb a c); simpl; intros [H|H].
  - exact (Hr H).
  - apply IH; [|exact H]. tauto.
  - apply Hs. left. exact H.
  - apply IH; [|exact H]. tauto.
Qed.

(** The fields of a row that [user_data_of] makes. *)
Lemma user_data_of_fields parse today user uid u :
  user_data_of parse today user uid = Ok u ->
  user_id u = uid
  /\ age u = the_age parse today (birth_date u)
  /\ exists b,
      bio u = VStr (str_replace "013" " " (str_replace "010" " " b)).
Proof.
  unfold user_data_of. intros H.
  destruct (get user "photos" (VList [])) as [photos|]; cbn [Py.bind] in H;
    [|discriminate].
  destruct (iter photos) as [items|]; cbn [Py.bind] in H; [|discriminate].
  destruct (photo_url_list items) as [urls|]; cbn [Py.bind] in H;
    [|discriminate].
  destruct (get user "name" (VStr "")) as [nm|]; cbn [Py.bind] in H;
    [|discriminate].
  destruct (get user "birth_date" (VStr "")) as [bd|]; cbn [Py.bind] in H;
    [|discriminate].
  rewrite calculate_age_the_age in H. cbn [Py.bind] in H.
  destruct (get user "bio" VNone) as [b|]; cbn [Py.bind] in H;
    [|discriminate].
  destruct (if truthy b then b else VStr "") as [| | |t| |];
    cbn [replace Py.bind] in H; try discriminate.
  destruct (len photos) as [n|]; cbn [Py.bind] in H; [|discriminate].
  destruct (join " | " urls) as [joined|]; cbn [Py.bind] in H;
    [|discriminate].
  inversion H; subst u; cbn [user_id age birth_date bio].
  split; [reflexivity|]. split; [reflexivity|].
  exists t. reflexivity.
Qed.

Lemma produced_fields parse u :
  produced parse u ->
  truthy (user_id u) = true
  /\ (exists today, age u = the_age parse today (birth_date u))
  /\ exists b,
      bio u = VStr (str_replace "013" " " (str_replace "010" " " b)).
Proof.
  intros [today [collected [result H]]].
  split; [apply (extract_user_fresh _ _ _ _ _ H)|].
  unfold extract_user in H.
  destruct (get result "type" VNone) as [ty|]; cbn [Py.bind] in H;
    [|discriminate].
  destruct (negb (equal ty (VStr "user"))); [discriminate|].
  destruct (get result "user" (VDict [])) as [user|]; cbn [Py.bind] in H;
    [|discriminate].
  destruct (get user "_id" VNone) as [uid|]; cbn [Py.bind] in H;
    [|discriminate].
  destruct (negb (truthy uid) || _); [discriminate|].
  destruct (user_data_of parse today user uid) as [r|] eqn:R;
    cbn [Py.bind] in H; [|discriminate].
  inversion H; subst r.
  destruct (user_data_of_fields _ _ _ _ _ R) as [_ [Ha Hb]].
  split; [exists today; exact Ha | exact Hb].
Qed.

(** The rows the [for] loop appends are rows of [extract_user]. *)
Lemma extract_loop_produced parse today results :
  forall collected found,
  exists added,
    fst (extract_loop parse today results collected found) = collected ++ added
    /\ Forall (produced parse) added.
Proof.
  induction results as [|result rest IH]; intros collected found; simpl.
  - exists []. rewrite app_nil_r. auto.
  - destruct (extract_user parse today collected result) as [[u|]|e] eqn:E.
    + destruct (IH (collected ++ [u]) (S found)) as [added [H1 H2]].
      exists (u :: added). rewrite H1, <- app_assoc. split; [reflexivity|].
      constructor; [|exact H2]. exists today, collected, result. exact E.
    + apply IH.
    + exists []. rewrite app_nil_r. auto.
Qed.

Lemma extract_users_produced parse today data s :
  exists added,
    fst (extract_users_from_response parse today data s)
    = {| users_collected := users_collected s ++ added;
         request_count := request_count s;
         csv_filename := csv_filename s;
         csv_rows := csv_rows s |}
    /\ Forall (produced parse) added
    /\ (forall n,
           snd (extract_users_from_response parse today data s) = Ok n ->
           n = List.length added).
Proof.
  assert (Z0 : forall r : result nat,
             (forall n, r = Ok n -> n = 0%nat) ->
             exists added,
               fst (s, r)
               = {| users_collected := users_collected s ++ added;
                    request_count := request_count s;
                    csv_filename := csv_filename s;
                    csv_rows := csv_rows s |}
               /\ Forall (produced parse) added
               /\ (forall n, snd (s, r) = Ok n -> n = List.length added)).
  { intros r Hr. exists []. rewrite app_nil_r. destruct s. simpl.
    repeat split; auto. }
  unfold extract_users_from_response.
  destruct (lacks_results data) as [[|]|e].
  - apply Z0. intros n H. inversion H. reflexivity.
  - destruct (inner <- getitem data "data";; rs <- getitem inner "results";;
              iter rs) as [results|e].
    + destruct (extract_loop_produced parse today results (users_collected s) 0)
        as [added [H1 H2]].
      destruct (extract_loop_appends parse today results (users_collected s) 0)
        as [added' [H1' [H2' _]]].
      rewrite H1 in H1'. apply app_inv_head in H1'. subst added'.
      destruct (extract_loop parse today results (users_collected s) 0)
        as [collected r]; simpl in *.
      exists added. rewrite H1. repeat split; auto.
    + apply Z0. intros n H. discriminate.
  - apply Z0. intros n H. discriminate.
Qed.

(** No step of the extraction raises [KeyboardInterrupt]. *)
Lemma quiet_ok {A : Type} (a : A) : quiet (Ok a).
Proof. intros e H. discriminate. Qed.

Lemma quiet_bind {A B : Type} (m : result A) (k : A -> result B) :
  quiet m -> (forall a, quiet (k a)) -> quiet (Py.bind m k).
Proof.
  intros Hm Hk e H. destruct m as [a|e']; cbn [Py.bind] in H.
  - exact (Hk a e H).
  - inversion H; subst e'. apply (Hm e). reflexivity.
Qed.

Lemma quiet_get o k d : quiet (get o k d).
Proof. intros e H. destruct o; inversion H; discriminate. Qed.

Lemma quiet_getitem c k : quiet (getitem c k).
Proof.
  intros e H. destruct c as [| | | | |d]; try (inversion H; discriminate).
  simpl in H. destruct (lookup k d); inversion H; discriminate.
Qed.

Lemma quiet_contains x c : quiet (contains x c).
Proof. intros e H. destruct c; inversion H; discriminate. Qed.

Lemma quiet_iter c : quiet (iter c).
Proof. intros e H. destruct c; inversion H; discriminate. Qed.

Lemma quiet_len c : quiet (len c).
Proof. intros e H. destruct c; inversion H; discriminate. Qed.

Lemma quiet_replace o c r : quiet (replace o c r).
Proof. intros e H. destruct o; inversion H; discriminate. Qed.

Lemma quiet_join sep items : quiet (join sep items).
Proof.
  induction items as [|v rest IH]; [apply quiet_ok|].
  destruct v as [| | |s| |]; try (intros e H; inversion H; discriminate).
  simpl. destruct rest as [|w rest']; [apply quiet_ok|].
  apply quiet_bind; [exact IH | intros; apply quiet_ok].
Qed.

Lemma quiet_photo_url_list photos : quiet (photo_url_list photos).
Proof.
  induction photos as [|p rest IH]; [apply quiet_ok|].
  simpl. apply quiet_bind; [apply quiet_get|]. intros u.
  destruct (truthy u); [|exact IH].
  apply quiet_bind; [apply quiet_get|]. intros u'.
  apply quiet_bind; [exact IH | intros; apply quiet_ok].
Qed.

Lemma quiet_calculate_age parse today v : quiet (calculate_age parse today v).
Proof. rewrite calculate_age_the_age. apply quiet_ok. Qed.

Lemma quiet_user_data_of parse today user uid :
  quiet (user_data_of parse today user uid).
Proof.
  unfold user_data_of.
  repeat (apply quiet_bind;
          [first [apply quiet_get | apply quiet_iter
                 | apply quiet_photo_url_list | apply quiet_calculate_age
                 | apply quiet_replace | apply quiet_len | apply quiet_join]
          | intros ?]).
  apply quiet_ok.
Qed.

Lemma quiet_extract_user parse today collected result :
  quiet (extract_user parse today collected result).
Proof.
  unfold extract_user.
  apply quiet_bind; [apply quiet_get|]. intros ty.
  destruct (negb (equal ty (VStr "user"))); [apply quiet_ok|].
  apply quiet_bind; [apply quiet_get|]. intros user.
  apply quiet_bind; [apply quiet_get|]. intros uid.
  destruct (negb (truthy uid) || _); [apply quiet_ok|].
  apply quiet_bind; [apply quiet_user_data_of | intros; apply quiet_ok].
Qed.

Lemma quiet_extract_loop parse today results :
  forall collected found,
    quiet (snd (extract_loop parse today results collected found)).
Proof.
  induction results as [|result rest IH]; intros collected found; simpl;
    [apply quiet_ok|].
  pose proof (quiet_extract_user parse today collected result) as Q.
  destruct (extract_user parse today collected result) as [[u|]|e];
    [apply IH | apply IH |].
  intros e0 H. inversion H; subst e0. apply (Q e). reflexivity.
Qed.

Lemma quiet_extract_users parse today data s :
  quiet (snd (extract_users_from_response parse today data s)).
Proof.
  unfold extract_users_from_response.
  assert (QL : quiet (lacks_results data)).
  { unfold lacks_results.
    apply quiet_bind; [apply quiet_contains|]. intros b.
    destruct (negb b); [apply quiet_ok|].
    apply quiet_bind; [apply quiet_getitem|]. intros inner.
    apply quiet_bind; [apply quiet_contains | intros; apply quiet_ok]. }
  assert (QR : quiet (inner <- getitem data "data";;
                      rs <- getitem inner "results";; iter rs)).
  { apply quiet_bind; [apply quiet_getitem|]. intros inner.
    apply quiet_bind; [apply quiet_getitem | intros; apply quiet_iter]. }
  destruct (lacks_results data) as [[|]|e]; [apply quiet_ok| |];
    [|intros e0 H; inversion H; subst e0; apply (QL e); reflexivity].
  destruct (inner <- getitem data "data";; rs <- getitem inner "results";;
            iter rs) as [results|e];
    [|intros e0 H; inversion H; subst e0; apply (QR e); reflexivity].
  pose proof (quiet_extract_loop parse today results (users_collected s) 0)
    as Q.
  destruct (extract_loop parse today results (users_collected s) 0)
    as [collected r]. exact Q.
Qed.

(** ** Further properties of the loop *)

(** What the loop does to the collection and to the file: both only
    grow, by rows of [extract_user]; the file gets the rows in the order
    of the collection, and rows stay unwritten only when an exception
    other than [KeyboardInterrupt] ended the loop. *)
Lemma scraping_loop_appends parse max_requests env :
  forall s,
  exists written pending,
    users_collected (state (scraping_loop parse max_requests env s))
    = users_collected s ++ written ++ pending
    /\ csv_rows (state (scraping_loop parse max_requests env s))
       = csv_rows s ++ written
    /\ csv_filename (state (scraping_loop parse max_requests env s))
       = csv_filename s
    /\ Forall (produced parse) (written ++ pending)
    /\ (pending <> [] ->
        exists e,
          how (scraping_loop parse max_requests env s) = Raised e
          /\ e <> KeyboardInterrupt).
Proof.
  assert (Keep : forall s s' h,
             users_collected s' = users_collected s ->
             csv_rows s' = csv_rows s ->
             csv_filename s' = csv_filename s ->
             exists written pending : list user_data,
               users_collected s' = users_collected s ++ written ++ pending
               /\ csv_rows s' = csv_rows s ++ written
               /\ csv_filename s' = csv_filename s
               /\ Forall (produced parse) (written ++ pending)
               /\ (pending <> [] ->
                   exists e, h = Raised e /\ e <> KeyboardInterrupt)).
  { intros s s' h E1 E2 E3. exists [], []. rewrite !app_nil_r.
    repeat split; auto. intros N. contradiction. }
  induction env as [|c env IH]; intros s; cbn [scraping_loop].
  - destruct (while_condition max_requests s); cbn [state how];
      apply Keep; reflexivity.
  - destruct (while_condition max_requests s);
      [|cbn [state how]; apply Keep; reflexivity].
    destruct (make_recs_request (net_event c)) as [log [[status body]|e]];
      [|cbn [state how]; apply Keep; reflexivity].
    destruct (not_200 status); [cbn [state how]; apply Keep; reflexivity|].
    set (s1 := with_request_count (request_count s + 1) s).
    destruct (extract_users_produced parse (clock c) body s1)
      as [added [Hs2 [Hp Hn]]].
    pose proof (quiet_extract_users parse (clock c) body s1) as Q.
    destruct (extract_users_from_response parse (clock c) body s1)
      as [s2 r2]; cbn [fst snd] in Hs2, Hn, Q. subst s2.
    cbn [users_collected csv_rows csv_filename request_count
         with_request_count s1] in *.
    destruct r2 as [n|e].
    + destruct (0 <? n)%nat eqn:Pos.
      * rewrite skipn_app, skipn_all, Nat.sub_diag. cbn [skipn app].
        set (s3 := save_users_to_csv added _).
        assert (Hu3 : users_collected s3 = users_collected s ++ added).
        { unfold s3, save_users_to_csv. destruct added; reflexivity. }
        assert (Hc3 : csv_rows s3 = csv_rows s ++ added).
        { unfold s3, save_users_to_csv. destruct added; cbn [csv_rows];
            [rewrite app_nil_r|]; reflexivity. }
        assert (Hf3 : csv_filename s3 = csv_filename s).
        { unfold s3, save_users_to_csv. destruct added; reflexivity. }
        destruct (sleep_interrupted c).
        -- exists added, []. cbn [state how]. rewrite app_nil_r.
           repeat split; auto. intros N; contradiction.
        -- destruct (IH s3) as [w [p [H1 [H2 [H3 [H4 H5]]]]]].
           exists (added ++ w), p. cbn [state how after].
           rewrite H1, H2, H3, Hu3, Hc3, Hf3, <- !app_assoc.
           repeat split; auto.
           apply Forall_app. split; [exact Hp | exact H4].
      * apply Nat.ltb_ge in Pos. specialize (Hn n eq_refl).
        assert (added = []) by (destruct added; [reflexivity|simpl in Hn; lia]).
        subst added. cbn [state how]. apply Keep; cbn [users_collected
          csv_rows csv_filename]; rewrite ?app_nil_r; reflexivity.
    + exists [], added. cbn [state how users_collected csv_rows csv_filename app].
      rewrite app_nil_r. repeat split; auto.
      intros _. exists e. split; [reflexivity|]. apply Q. reflexivity.
Qed.

Lemma run_rows_produced parse max_requests env file :
  Forall (produced parse)
    (users_collected
       (state (run_continuous_scraping parse max_requests env
                 (TinderScraper file))))
  /\ Forall (produced parse)
       (csv_rows
          (state (run_continuous_scraping parse max_requests env
                    (TinderScraper file)))).
Proof.
  rewrite state_run.
  destruct (scraping_loop_appends parse max_requests env (TinderScraper file))
    as [w [p [H1 [H2 [_ [H4 _]]]]]].
  rewrite H1, H2. cbn [users_collected csv_rows TinderScraper app].
  split; [exact H4|]. apply Forall_app in H4. tauto.
Qed.

(** X1: a run only appends.  The rows the scraper had stay, in place, at
    the front of the collection and of the file; the file gets rows of
    the collection, in the same order; the name of the file stays. *)
Theorem rows_only_appended parse max_requests env s :
  let r := run_continuous_scraping parse max_requests env s in
  exists written pending,
    users_collected (state r) = users_collected s ++ written ++ pending
    /\ csv_rows (state r) = csv_rows s ++ written
    /\ csv_filename (state r) = csv_filename s.
Proof.
  intros r. unfold r. rewrite state_run.
  destruct (scraping_loop_appends parse max_requests env s)
    as [w [p [H1 [H2 [H3 _]]]]].
  exists w, p. auto.
Qed.

(** X2: when the run returns, through whichever stop, every row of the
    collection is in the file, provided it was so at the start. *)
Theorem stopped_run_is_saved parse max_requests env s x :
  csv_rows s = users_collected s ->
  how (run_continuous_scraping parse max_requests env s) = Exit x ->
  csv_rows (state (run_continuous_scraping parse max_requests env s))
  = users_collected (state (run_continuous_scraping parse max_requests env s)).
Proof.
  intros Hs Hx. rewrite how_run in Hx. rewrite state_run.
  destruct (scraping_loop_appends parse max_requests env s)
    as [w [p [H1 [H2 [_ [_ H5]]]]]].
  destruct p as [|u p].
  - rewrite H1, H2, Hs, app_nil_r. reflexivity.
  - destruct H5 as [e [He Hq]]; [discriminate|].
    rewrite He in Hx.
    destruct (snd (summary _)); [discriminate|].
    destruct e; try discriminate. contradiction.
Qed.

Lemma stopped_run_is_saved_witness :
  let pa := {| p_id := "5f3a91c2aa01"; p_name := "Ann"; p_bio := "";
               p_birth_date := "2000-06-15"; p_photos := ["a"] |} in
  let env := [{| net_event := Reply 200 "" (Some (page [user_result pa]));
                 clock := on 2024 6 14;
                 sleep_interrupted := true |}] in
  let s := TinderScraper "tinder_users_20240614_120000.csv" in
  csv_rows s = users_collected s
  /\ how (run_continuous_scraping Iso.parse None env s) = Exit STOP_INTERRUPTED
  /\ csv_rows (state (run_continuous_scraping Iso.parse None env s))
     = users_collected (state (run_continuous_scraping Iso.parse None env s))
  /\ List.length
       (csv_rows (state (run_continuous_scraping Iso.parse None env s)))
     = 1%nat.
Proof.
  cbv zeta. split; [reflexivity|]. split; [reflexivity|].
  split; [|reflexivity].
  apply (stopped_run_is_saved Iso.parse None _ _ STOP_INTERRUPTED);
    reflexivity.
Defined.

(** X3: no row of a run of a new scraper, in the collection or in the
    file, has an [_id] that is false: [None], the empty string, 0,
    [False], an empty list or dict. *)
Theorem rows_have_ids parse max_requests env file :
  let r := run_continuous_scraping parse max_requests env
             (TinderScraper file) in
  Forall (fun u => truthy (user_id u) = true) (users_collected (state r))
  /\ Forall (fun u => truthy (user_id u) = true) (csv_rows (state r)).
Proof.
  intros r. unfold r.
  destruct (run_rows_produced parse max_requests env file) as [H1 H2].
  split; eapply Forall_impl; try eassumption;
    intros u Hu; apply (produced_fields parse u Hu).
Qed.

(** X6: the extraction touches the collection only, and only at its
    end; the number it returns is the number of rows it appended. *)
Theorem extract_count_is_growth parse today data s :
  let s' := fst (extract_users_from_response parse today data s) in
  let r := snd (extract_users_from_response parse today data s) in
  request_count s' = request_count s
  /\ csv_filename s' = csv_filename s
  /\ csv_rows s' = csv_rows s
  /\ exists added,
      users_collected s' = users_collected s ++ added
      /\ forall n, r = Ok n -> n = List.length added.
Proof.
  cbv zeta.
  destruct (extract_users_appends parse today data s)
    as [added [H1 [H2 [H3 [H4 [H5 _]]]]]].
  repeat split; auto. exists added. auto.
Qed.

Lemma extract_count_is_growth_witness :
  let p := {| p_id := "5f3a91c2aa01"; p_name := "Ann"; p_bio := "";
              p_birth_date := "2000-06-15"; p_photos := ["a"] |} in
  let s := TinderScraper "tinder_users_20240614_120000.csv" in
  let out := extract_users_from_response Iso.parse (on 2024 6 14)
               (page [user_result p; user_result p]) s in
  snd out = Ok 1%nat
  /\ exists added,
      users_collected (fst out) = users_collected s ++ added
      /\ List.length added = 1%nat.
Proof.
  cbv zeta. split; [reflexivity|].
  destruct (extract_count_is_growth Iso.parse (on 2024 6 14)
              (page [user_result
                       {| p_id := "5f3a91c2aa01"; p_name := "Ann"; p_bio := "";
                          p_birth_date := "2000-06-15"; p_photos := ["a"] |};
                     user_result
                       {| p_id := "5f3a91c2aa01"; p_name := "Ann"; p_bio := "";
                          p_birth_date := "2000-06-15"; p_photos := ["a"] |}])
              (TinderScraper "tinder_users_20240614_120000.csv"))
    as [_ [_ [_ [added [H1 H2]]]]].
  exists added. split; [exact H1|].
  symmetry. apply H2. reflexivity.
Defined.

Lemma equal_to_user ty :
  equal ty (VStr "user") = true -> ty = VStr "user".
Proof.
  destruct ty as [| | |t| |]; simpl; try discriminate.
  intros H. apply String.eqb_eq in H. subst. reflexivity.
Qed.

Lemma extract_user_passed_over parse today collected result :
  passed_over result ->
  extract_user parse today collected result = Ok None.
Proof.
  intros H. unfold extract_user.
  destruct H as [e H | e H | e d H1 H2 | e d H1 H2 | e d H1 H2];
    rewrite get_dict; cbn [Py.bind];
    destruct (negb (equal (default VNone (lookup "type" e)) (VStr "user")))
      eqn:T; try reflexivity.
  - exfalso. apply negb_false_iff, equal_to_user in T.
    destruct (lookup "type" e); simpl in T; [|discriminate].
    apply H. rewrite T. reflexivity.
  - rewrite get_dict, H. reflexivity.
  - rewrite get_dict, H1. cbn [default Py.bind]. rewrite get_dict, H2.
    reflexivity.
  - rewrite get_dict, H1. cbn [default Py.bind]. rewrite get_dict, H2.
    reflexivity.
  - rewrite get_dict, H1. cbn [default Py.bind]. rewrite get_dict, H2.
    reflexivity.
Qed.

Lemma extract_loop_filter parse today keep results :
  (forall r, In r results -> keep r = false -> passed_over r) ->
  forall collected found,
    extract_loop parse today results collected found
    = extract_loop parse today (filter keep results) collected found.
Proof.
  induction results as [|r rest IH]; intros Hp collected found;
    [reflexivity|].
  cbn [filter]. destruct (keep r) eqn:K.
  - cbn [extract_loop].
    destruct (extract_user parse today collected r) as [[u|]|e];
      try reflexivity; apply IH; intros r' Hin; apply Hp; right; exact Hin.
  - cbn [extract_loop].
    rewrite (extract_user_passed_over parse today collected r);
      [|apply Hp; [left; reflexivity | exact K]].
    apply IH. intros r' Hin. apply Hp. right. exact Hin.
Qed.

(** X7: entries of another type than ['user'], and user entries without
    an [_id] or with an empty one, count for nothing: taking them out of
    the results of a page changes neither the rows extracted nor the
    number returned, and a page made of such entries only gives 0. *)
Theorem passed_over_entries parse today results s :
  (forall keep,
      (forall r, In r results -> keep r = false -> passed_over r) ->
      extract_users_from_response parse today (page results) s
      = extract_users_from_response parse today (page (filter keep results)) s)
  /\ (Forall passed_over results ->
      extract_users_from_response parse today (page results) s
      = (s, Ok 0%nat)).
Proof.
  split.
  - intros keep Hk. rewrite !extract_users_page.
    rewrite (extract_loop_filter parse today keep results Hk). reflexivity.
  - intros Hall. rewrite extract_users_page.
    rewrite (extract_loop_filter parse today (fun _ => false) results).
    + assert (E : filter (fun _ : value => false) results = []).
      { clear. induction results; simpl; auto. }
      rewrite E. destruct s; reflexivity.
    + intros r Hin _. rewrite Forall_forall in Hall. apply Hall. exact Hin.
Qed.

Lemma passed_over_entries_witness :
  let ad := VDict [("type", VStr "ad"); ("user", VInt 3)] in
  let ghost := VDict [("type", VStr "user"); ("user", VDict [("name", VStr "x")])] in
  let s := TinderScraper "tinder_users_20240614_120000.csv" in
  Forall passed_over [ad; ghost]
  /\ extract_users_from_response Iso.parse (on 2024 6 14) (page [ad; ghost]) s
     = (s, Ok 0%nat).
Proof.
  cbv zeta.
  assert (F : Forall passed_over
                [VDict [("type", VStr "ad"); ("user", VInt 3)];
                 VDict [("type", VStr "user");
                        ("user", VDict [("name", VStr "x")])]]).
  { constructor; [apply other_type; discriminate|].
    constructor; [|constructor].
    apply (id_absent _ [("name", VStr "x")]); reflexivity. }
  split; [exact F|].
  exact (proj2 (passed_over_entries Iso.parse (on 2024 6 14) _
                  (TinderScraper "tinder_users_20240614_120000.csv")) F).
Defined.

Lemma extract_loop_incl parse today results collected found :
  incl collected (fst (extract_loop parse today results collected found)).
Proof.
  destruct (extract_loop_appends parse today results collected found)
    as [added [H _]].
  rewrite H. apply incl_appl. apply incl_refl.
Qed.

(** A second pass over results that were extracted finds nothing new. *)
Lemma extract_loop_again parse today today' results :
  forall collected found collected' n,
    extract_loop parse today results collected found = (collected', Ok n) ->
    Forall string_id collected' ->
    forall again found',
      incl collected' again ->
      extract_loop parse today' results again found' = (again, Ok found').
Proof.
  induction results as [|result rest IH];
    intros collected found collected' n H Hs again found' Hincl;
    [reflexivity|].
  cbn [extract_loop] in *.
  destruct (extract_user parse today collected result) as [[u|]|e] eqn:E.
  - assert (Hu : In u collected').
    { pose proof (extract_loop_incl parse today rest (collected ++ [u])
                    (S found)) as I.
      rewrite H in I. apply I. apply in_or_app. right. left. reflexivity. }
    rewrite Forall_forall in Hs. destruct (Hs u Hu) as [id Hid].
    rewrite (extract_user_stored parse today today' collected again result
               u id E Hid (Hincl u Hu)).
    apply (IH _ _ _ _ H); [apply Forall_forall; exact Hs | exact Hincl].
  - rewrite (extract_user_skipped parse today today' collected again result E).
    + apply (IH _ _ _ _ H Hs). exact Hincl.
    + pose proof (extract_loop_incl parse today rest collected found) as I.
      rewrite H in I. intros x Hx. apply Hincl, I, Hx.
  - discriminate.
Qed.

(** The extraction does not look at the counter. *)
Lemma extract_users_counter parse today data k s :
  extract_users_from_response parse today data (with_request_count k s)
  = (with_request_count k
       (fst (extract_users_from_response parse today data s)),
     snd (extract_users_from_response parse today data s)).
Proof.
  unfold extract_users_from_response.
  destruct (lacks_results data) as [[|]|e]; try reflexivity.
  destruct (inner <- getitem data "data";; rs <- getitem inner "results";;
            iter rs) as [results|e]; try reflexivity.
  cbn [users_collected with_request_count].
  destruct (extract_loop parse today results (users_collected s) 0)
    as [collected r].
  reflexivity.
Qed.

(** X8: extracting the same body a second time, on whatever day, adds
    nothing and returns 0, the ids of the collection being strings; the
    loop, served the body again, stops as an empty page. *)
Theorem same_page_twice parse today today' data s s1 n :
  extract_users_from_response parse today data s = (s1, Ok n) ->
  Forall string_id (users_collected s1) ->
  extract_users_from_response parse today' data s1 = (s1, Ok 0%nat)
  /\ forall max_requests text i env,
      while_condition max_requests s1 = true ->
      how (scraping_loop parse max_requests
             ({| net_event := Reply 200 text (Some data); clock := today';
                 sleep_interrupted := i |} :: env) s1)
      = Exit STOP_EMPTY_PAGE.
Proof.
  intros H Hs.
  assert (E : extract_users_from_response parse today' data s1
              = (s1, Ok 0%nat)).
  { unfold extract_users_from_response in *.
    destruct (lacks_results data) as [[|]|e]; [inversion H; reflexivity| |
                                               discriminate].
    destruct (inner <- getitem data "data";; rs <- getitem inner "results";;
              iter rs) as [results|e]; [|discriminate].
    destruct (extract_loop parse today results (users_collected s) 0)
      as [collected r] eqn:L.
    inversion H; subst r. subst s1. cbn [users_collected] in *.
    rewrite (extract_loop_again parse today today' results _ _ _ _ L Hs
               collected 0%nat (incl_refl _)).
    reflexivity. }
  split; [exact E|].
  intros max_requests text i env W.
  rewrite (scraping_loop_extract parse max_requests _ env s1 [] data W);
    [|reflexivity].
  cbv zeta. cbn [clock].
  rewrite extract_users_counter, E. reflexivity.
Qed.

Lemma same_page_twice_witness :
  let pa := {| p_id := "5f3a91c2aa01"; p_name := "Ann"; p_bio := "";
               p_birth_date := "2000-06-15"; p_photos := ["a"] |} in
  let data := page [user_result pa] in
  let s := TinderScraper "tinder_users_20240614_120000.csv" in
  let s1 := fst (extract_users_from_response Iso.parse (on 2024 6 14) data s) in
  extract_users_from_response Iso.parse (on 2024 6 14) data s = (s1, Ok 1%nat)
  /\ Forall string_id (users_collected s1)
  /\ extract_users_from_response Iso.parse (on 2025 1 1) data s1
     = (s1, Ok 0%nat).
Proof.
  cbv zeta.
  assert (F : Forall string_id
                (users_collected
                   (fst (extract_users_from_response Iso.parse (on 2024 6 14)
                           (page [user_result
                                    {| p_id := "5f3a91c2aa01"; p_name := "Ann";
                                       p_bio := ""; p_birth_date := "2000-06-15";
                                       p_photos := ["a"] |}])
                           (TinderScraper "tinder_users_20240614_120000.csv"))))).
  { vm_compute. constructor; [|constructor]. eexists. reflexivity. }
  split; [reflexivity|]. split; [exact F|].
  refine (proj1 (same_page_twice Iso.parse (on 2024 6 14) (on 2025 1 1)
                   (page [user_result
                            {| p_id := "5f3a91c2aa01"; p_name := "Ann";
                               p_bio := ""; p_birth_date := "2000-06-15";
                               p_photos := ["a"] |}])
                   (TinderScraper "tinder_users_20240614_120000.csv")
                   _ 1%nat _ F)).
  reflexivity.
Defined.

(** X9: an entry that is no dict, after a user on the same page: the
    extraction raises [AttributeError] with the user already in the
    collection, the run ends on the exception after the summary, and the
    user is not in the file. *)
Theorem crash_leaves_row_unsaved parse today text p bad i env file :
  p_id p <> "" ->
  (forall e, bad <> VDict e) ->
  let r := run_continuous_scraping parse None
             ({| net_event := Reply 200 text
                                (Some (page [user_result p; bad]));
                 clock := today; sleep_interrupted := i |} :: env)
             (TinderScraper file) in
  how r = Raised AttributeError
  /\ users_collected (state r) = [row parse today p]
  /\ csv_rows (state r) = []
  /\ printed r = [MsgRequest 1; MsgTotalRequests 1; MsgTotalUsers 1;
                  MsgCsvFile file; MsgSampleHeader;
                  MsgSample 1 (VStr (p_name p))
                    (VStr (String.substring 0 8 (p_id p)))
                    (age (row parse today p))
                    (List.length (p_photos p))].
Proof.
  intros Hid Hbad r.
  assert (B : forall collected,
             extract_user parse today collected bad = Raise AttributeError).
  { intros collected. unfold extract_user.
    destruct bad; try reflexivity. exfalso. eapply Hbad. reflexivity. }
  assert (L : scraping_loop parse None
                ({| net_event := Reply 200 text
                                   (Some (page [user_result p; bad]));
                    clock := today; sleep_interrupted := i |} :: env)
                (TinderScraper file)
              = {| state := {| users_collected := [row parse today p];
                               request_count := 1;
                               csv_filename := file;
                               csv_rows := [] |};
                   printed := [MsgRequest 1];
                   how := Raised AttributeError |}).
  { rewrite (scraping_loop_extract parse None _ env _ []
               (page [user_result p; bad])); [|reflexivity|reflexivity].
    cbv zeta. cbn [clock]. rewrite extract_users_page.
    cbn [TinderScraper with_request_count users_collected extract_loop].
    rewrite (extract_user_profile parse today [] p Hid). cbn [existsb app].
    rewrite B. reflexivity. }
  unfold r, run_continuous_scraping. rewrite L.
  unfold except_KeyboardInterrupt, finally. cbn [how state].
  rewrite summary_strings;
    [|constructor; [eexists; reflexivity | constructor]].
  cbn [printed how state users_collected csv_rows].
  repeat split.
Qed.

Lemma crash_leaves_row_unsaved_witness :
  let p := {| p_id := "5f3a91c2aa01"; p_name := "Ann"; p_bio := "";
              p_birth_date := "2000-06-15"; p_photos := ["a"] |} in
  let r := run_continuous_scraping Iso.parse None
             [{| net_event := Reply 200 ""
                                (Some (page [user_result p; VNone]));
                 clock := on 2024 6 14; sleep_interrupted := false |}]
             (TinderScraper "tinder_users_20240614_120000.csv") in
  p_id p <> ""
  /\ how r = Raised AttributeError
  /\ List.length (users_collected (state r)) = 1%nat
  /\ csv_rows (state r) = [].
Proof.
  cbv zeta. split; [discriminate|].
  destruct (crash_leaves_row_unsaved Iso.parse (on 2024 6 14) ""
              {| p_id := "5f3a91c2aa01"; p_name := "Ann"; p_bio := "";
                 p_birth_date := "2000-06-15"; p_photos := ["a"] |}
              VNone false [] "tinder_users_20240614_120000.csv"
              ltac:(discriminate) ltac:(discriminate))
    as [H1 [H2 [H3 _]]].
  split; [exact H1|]. split; [rewrite H2; reflexivity | exact H3].
Defined.

(** X10: a request that fails in transport comes back with no status:
    the pass counts as a request, prints the failure, and the loop stops
    on the status with the rows as they were; for a new scraper the run
    returns after the summary. *)
Theorem transport_failure_stops parse max_requests e today i env s :
  while_condition max_requests s = true ->
  let c := {| net_event := RequestException e; clock := today;
              sleep_interrupted := i |} in
  scraping_loop parse max_requests (c :: env) s
  = {| state := with_request_count (request_count s + 1) s;
       printed := [MsgRequest (request_count s + 1); MsgRequestFailed e;
                   MsgNon200 None (VStr e)];
       how := Exit STOP_NON_200 |}
  /\ (users_collected s = [] ->
      how (run_continuous_scraping parse max_requests (c :: env) s)
      = Exit STOP_NON_200).
Proof.
  intros W c.
  assert (L : scraping_loop parse max_requests (c :: env) s
              = {| state := with_request_count (request_count s + 1) s;
                   printed := [MsgRequest (request_count s + 1);
                               MsgRequestFailed e; MsgNon200 None (VStr e)];
                   how := Exit STOP_NON_200 |}).
  { cbn [scraping_loop]. rewrite W. reflexivity. }
  split; [exact L|].
  intros U. rewrite how_run, L. cbn [how state].
  rewrite summary_new_scraper by exact U. reflexivity.
Qed.

Lemma transport_failure_stops_witness :
  let s := TinderScraper "tinder_users_20240614_120000.csv" in
  let env := [{| net_event := RequestException "Connection timed out";
                 clock := on 2024 6 14; sleep_interrupted := false |}] in
  while_condition (Some 5) s = true
  /\ how (run_continuous_scraping Iso.parse (Some 5) env s)
     = Exit STOP_NON_200.
Proof.
  cbv zeta. split; [reflexivity|].
  apply (proj2 (transport_failure_stops Iso.parse (Some 5)
                  "Connection timed out" (on 2024 6 14) false []
                  (TinderScraper "tinder_users_20240614_120000.csv")
                  eq_refl)).
  reflexivity.
Defined.

(** X11: Ctrl+C while the request is under way: the request was counted,
    nothing else changes, the handler prints its line, the summary
    follows, and for a new scraper the run returns as interrupted. *)
Theorem interrupted_request parse max_requests today i env s :
  while_condition max_requests s = true ->
  let c := {| net_event := NetInterrupt; clock := today;
              sleep_interrupted := i |} in
  let r := run_continuous_scraping parse max_requests (c :: env) s in
  state r = with_request_count (request_count s + 1) s
  /\ printed r
     = [MsgRequest (request_count s + 1); MsgInterrupted]
       ++ fst (summary (state r))
  /\ (users_collected s = [] -> how r = Exit STOP_INTERRUPTED).
Proof.
  intros W c r.
  assert (L : scraping_loop parse max_requests (c :: env) s
              = {| state := with_request_count (request_count s + 1) s;
                   printed := [MsgRequest (request_count s + 1)];
                   how := Raised KeyboardInterrupt |}).
  { cbn [scraping_loop]. rewrite W. reflexivity. }
  unfold r. rewrite state_run, how_run, printed_run; rewrite L;
    [|discriminate]. cbn [state printed how].
  split; [reflexivity|]. split; [reflexivity|].
  intros U. rewrite summary_new_scraper by exact U. reflexivity.
Qed.

Lemma interrupted_request_witness :
  let s := TinderScraper "tinder_users_20240614_120000.csv" in
  let env := [{| net_event := NetInterrupt; clock := on 2024 6 14;
                 sleep_interrupted := false |}] in
  while_condition None s = true
  /\ printed (run_continuous_scraping Iso.parse None env s)
     = [MsgRequest 1; MsgInterrupted; MsgTotalRequests 1; MsgTotalUsers 0;
        MsgCsvFile "tinder_users_20240614_120000.csv"].
Proof.
  cbv zeta. split; [reflexivity|].
  destruct (interrupted_request Iso.parse None (on 2024 6 14) false []
              (TinderScraper "tinder_users_20240614_120000.csv") eq_refl)
    as [_ [H _]].
  rewrite H. reflexivity.
Defined.

(** X12: every pass but the last one adds a row: the requests issued
    are at most one more than the rows the run added. *)
Theorem each_pass_adds_a_row parse max_requests env s :
  let r := run_continuous_scraping parse max_requests env s in
  (requests_issued (printed r) + List.length (users_collected s)
   <= S (List.length (users_collected (state r))))%nat.
Proof.
  intros r. unfold r. rewrite requests_issued_run, state_run. clear r.
  revert s. induction env as [|c env IH]; intros s; cbn [scraping_loop].
  - destruct (while_condition max_requests s); cbn [state printed];
      count_requests.
  - destruct (while_condition max_requests s); cbn [state printed];
      [|count_requests].
    pose proof (make_recs_request_log (net_event c)) as Hlog.
    destruct (make_recs_request (net_event c)) as [log [[status body]|e]];
      cbn [fst] in Hlog; cbn [state printed users_collected
                              with_request_count]; [|count_requests].
    destruct (not_200 status);
      cbn [state printed users_collected with_request_count];
      [count_requests|].
    set (s1 := with_request_count (request_count s + 1) s).
    destruct (extract_users_appends parse (clock c) body s1)
      as [added [Hu [_ [_ [_ [Hn _]]]]]].
    destruct (extract_users_from_response parse (clock c) body s1)
      as [s2 r2]; cbn [fst snd] in Hu, Hn.
    cbn [users_collected s1 with_request_count] in Hu.
    destruct r2 as [n|e]; cbn [state printed];
      [|rewrite Hu, length_app; count_requests].
    specialize (Hn n eq_refl).
    destruct (0 <? n)%nat eqn:Pos; cbn [state printed];
      [|rewrite Hu, length_app; count_requests].
    apply Nat.ltb_lt in Pos.
    set (s3 := save_users_to_csv _ s2).
    assert (Hu3 : users_collected s3 = users_collected s ++ added).
    { unfold s3, save_users_to_csv.
      destruct (skipn _ _); cbn [users_collected]; exact Hu. }
    destruct (sleep_interrupted c); cbn [state printed after].
    + rewrite Hu3, length_app. count_requests.
    + specialize (IH s3). rewrite Hu3, length_app in IH.
      unfold requests_issued in *. simpl.
      rewrite ?filter_app, ?length_app in *. simpl. lia.
Qed.

(** X13: once the loop is over, what the environment holds further is
    never looked at: the run is the same with more passes on offer. *)
Theorem stopped_run_ignores_rest parse max_requests env more s :
  how (run_continuous_scraping parse max_requests env s) <> Running ->
  run_continuous_scraping parse max_requests (env ++ more) s
  = run_continuous_scraping parse max_requests env s.
Proof.
  intros H.
  assert (Hl : how (scraping_loop parse max_requests env s) <> Running).
  { intros E. apply H. rewrite how_run, E. reflexivity. }
  clear H.
  assert (L : scraping_loop parse max_requests (env ++ more) s
              = scraping_loop parse max_requests env s).
  { revert s Hl. induction env as [|c env IH]; intros s Hl;
      cbn [scraping_loop app] in *.
    - destruct (while_condition max_requests s) eqn:W;
        [exfalso; apply Hl; reflexivity|].
      destruct more; cbn [scraping_loop]; rewrite W; reflexivity.
    - destruct (while_condition max_requests s); [|reflexivity].
      destruct (make_recs_request (net_event c)) as [log [[status body]|e]];
        [|reflexivity].
      destruct (not_200 status); [reflexivity|].
      destruct (extract_users_from_response parse (clock c) body
                  (with_request_count (request_count s + 1) s))
        as [s2 [n|e]]; [|reflexivity].
      destruct (0 <? n)%nat; [|reflexivity].
      destruct (sleep_interrupted c); [reflexivity|].
      rewrite IH; [reflexivity|]. exact Hl. }
  unfold run_continuous_scraping. rewrite L. reflexivity.
Qed.

Lemma stopped_run_ignores_rest_witness :
  let s := TinderScraper "tinder_users_20240614_120000.csv" in
  let env := [{| net_event := Reply 429 "Too Many Requests" None;
                 clock := on 2024 6 14; sleep_interrupted := false |}] in
  let more := [served (on 2024 6 14) ""
                 (page [user_result
                          {| p_id := "5f3a91c2aa01"; p_name := "Ann";
                             p_bio := ""; p_birth_date := "";
                             p_photos := [] |}])] in
  how (run_continuous_scraping Iso.parse None env s) = Exit STOP_NON_200
  /\ run_continuous_scraping Iso.parse None (env ++ more) s
     = run_continuous_scraping Iso.parse None env s.
Proof.
  cbv zeta. split; [reflexivity|].
  apply (stopped_run_ignores_rest Iso.parse None).
  vm_compute. discriminate.
Defined.

(** ** Further properties of [calculate_age] *)

(** X14: on the day of the month of birth, [k] years after the year of
    birth, the age is [k]; on an earlier day of that month it is
    [k - 1]. *)
Theorem age_on_anniversary parse s birth k d :
  s <> "" -> s <> "N/A" ->
  parse (str_replace "Z" "+00:00" s) = Some birth ->
  calculate_age parse (on (year birth + k) (month birth) (day birth)) (VStr s)
  = Ok (VInt k)
  /\ (d < day birth ->
      calculate_age parse (on (year birth + k) (month birth) d) (VStr s)
      = Ok (VInt (k - 1))).
Proof.
  intros Hne Hna Hp. unfold calculate_age.
  rewrite !(calculate_age_try_parsed parse _ s birth Hne Hna Hp).
  cbn [on year month day].
  rewrite !Z.ltb_irrefl, !Z.eqb_refl. cbn [orb andb].
  split.
  - f_equal. f_equal. lia.
  - intros Hd. apply Z.ltb_lt in Hd. rewrite Hd. f_equal. f_equal. lia.
Qed.

Lemma age_on_anniversary_witness :
  Iso.parse (str_replace "Z" "+00:00" "1995-07-14T22:07:01.046Z")
  = Some (on 1995 7 14)
  /\ calculate_age Iso.parse (on 2025 7 14) (VStr "1995-07-14T22:07:01.046Z")
     = Ok (VInt 30)
  /\ calculate_age Iso.parse (on 2025 7 13) (VStr "1995-07-14T22:07:01.046Z")
     = Ok (VInt 29).
Proof.
  split; [reflexivity|].
  destruct (age_on_anniversary Iso.parse "1995-07-14T22:07:01.046Z"
              (on 1995 7 14) 30 13
              ltac:(discriminate) ltac:(discriminate) eq_refl) as [H1 H2].
  split; [exact H1 | apply H2; reflexivity].
Defined.

(** X15: the age never goes down as the days go by: for a birth date
    that parses, a later today gives an age at least as large. *)
Theorem age_monotone parse s birth today1 today2 :
  s <> "" -> s <> "N/A" ->
  parse (str_replace "Z" "+00:00" s) = Some birth ->
  date_le today1 today2 ->
  exists a1 a2,
    calculate_age parse today1 (VStr s) = Ok (VInt a1)
    /\ calculate_age parse today2 (VStr s) = Ok (VInt a2)
    /\ a1 <= a2.
Proof.
  intros Hne Hna Hp Hle. unfold calculate_age.
  rewrite !(calculate_age_try_parsed parse _ s birth Hne Hna Hp).
  eexists. eexists. split; [reflexivity|]. split; [reflexivity|].
  unfold date_le in Hle.
  destruct ((month today1 <? month birth)
            || (month today1 =? month birth) && (day today1 <? day birth))
    eqn:B1;
  destruct ((month today2 <? month birth)
            || (month today2 =? month birth) && (day today2 <? day birth))
    eqn:B2; lia.
Qed.

Lemma age_monotone_witness :
  Iso.parse (str_replace "Z" "+00:00" "2000-06-15") = Some (on 2000 6 15)
  /\ date_le (on 2024 6 14) (on 2024 6 15)
  /\ exists a1 a2,
      calculate_age Iso.parse (on 2024 6 14) (VStr "2000-06-15")
      = Ok (VInt a1)
      /\ calculate_age Iso.parse (on 2024 6 15) (VStr "2000-06-15")
         = Ok (VInt a2)
      /\ a1 <= a2.
Proof.
  assert (D : date_le (on 2024 6 14) (on 2024 6 15)).
  { right. split; [reflexivity|]. right. split; [reflexivity|].
    cbn [on day]. lia. }
  split; [reflexivity|]. split; [exact D|].
  apply (age_monotone Iso.parse "2000-06-15" (on 2000 6 15));
    [discriminate | discriminate | reflexivity | exact D].
Defined.

(** X16: a birth date that is not a string, whatever else it is, gives
    ['N/A']: what is false is caught by the first test, the rest has no
    [replace] and the [except] catches the [AttributeError]. *)
Theorem age_of_non_string parse today v :
  (forall s, v <> VStr s) ->
  calculate_age parse today v = Ok (VStr "N/A")
  /\ (truthy v = true ->
      calculate_age_try parse today v = Raise AttributeError).
Proof.
  intros H. unfold calculate_age, calculate_age_try.
  destruct v as [|b|z|s|l|d]; try (exfalso; apply (H s); reflexivity);
    cbn [truthy equal negb orb].
  - split; [reflexivity | discriminate].
  - destruct b; split; try reflexivity; discriminate.
  - destruct (z =? 0); split; try reflexivity; discriminate.
  - destruct l; split; try reflexivity; discriminate.
  - destruct d; split; try reflexivity; discriminate.
Qed.

Lemma age_of_non_string_witness :
  (forall s, VInt 19950714 <> VStr s)
  /\ calculate_age Iso.parse (on 2024 6 14) (VInt 19950714) = Ok (VStr "N/A").
Proof.
  split; [discriminate|].
  apply (age_of_non_string Iso.parse (on 2024 6 14) (VInt 19950714)).
  discriminate.
Defined.

(** ** The limit on a scraper that is used again *)

(** X17: the counter stays with the scraper, so the limit counts the
    requests of earlier runs too: a run issues at most what is left of
    the limit, and two runs in a row with the limit [N], the second on
    the scraper the first one left, issue at most [N] requests
    together. *)
Theorem limit_counts_earlier_runs parse N env1 env2 s file :
  0 < N ->
  let r := run_continuous_scraping parse (Some N) env1 s in
  let r1 := run_continuous_scraping parse (Some N) env1 (TinderScraper file) in
  let r2 := run_continuous_scraping parse (Some N) env2 (state r1) in
  Z.of_nat (requests_issued (printed r)) <= Z.max 0 (N - request_count s)
  /\ Z.of_nat (requests_issued (printed r1))
     + Z.of_nat (requests_issued (printed r2)) <= N.
Proof.
  intros HN r r1 r2.
  assert (G : forall env s0,
             Z.of_nat (requests_issued
                         (printed (run_continuous_scraping parse (Some N)
                                     env s0)))
             <= Z.max 0 (N - request_count s0)
             /\ request_count
                  (state (run_continuous_scraping parse (Some N) env s0))
                = request_count s0
                  + Z.of_nat (requests_issued
                                (printed (run_continuous_scraping parse
                                            (Some N) env s0)))).
  { intros env s0. rewrite requests_issued_run, state_run.
    destruct (scraping_loop_limit parse N env ltac:(lia) s0) as [H1 _].
    pose proof (scraping_loop_counts parse (Some N) env s0) as Hc.
    split; [lia | exact Hc]. }
  split; [apply G|].
  destruct (G env1 (TinderScraper file)) as [A1 A2].
  destruct (G env2 (state r1)) as [B1 _].
  fold r1 in A1, A2. fold r2 in B1.
  cbn [request_count TinderScraper] in A1, A2. lia.
Qed.

Lemma limit_counts_earlier_runs_witness :
  let pa := {| p_id := "5f3a91c2aa"; p_name := "Ann"; p_bio := "";
               p_birth_date := ""; p_photos := [] |} in
  let pb := {| p_id := "60b7d1e4bb"; p_name := "Bea"; p_bio := "";
               p_birth_date := ""; p_photos := [] |} in
  let env1 := [served (on 2024 6 14) "" (page [user_result pa])] in
  let env2 := [served (on 2024 6 14) "" (page [user_result pb]);
               served (on 2024 6 14) "" (page [user_result pa])] in
  let r1 := run_continuous_scraping Iso.parse (Some 2) env1
              (TinderScraper "tinder_users_20240614_120000.csv") in
  let r2 := run_continuous_scraping Iso.parse (Some 2) env2 (state r1) in
  0 < 2
  /\ requests_issued (printed r1) = 1%nat
  /\ requests_issued (printed r2) = 1%nat
  /\ how r2 = Exit STOP_REQUEST_LIMIT
  /\ Z.of_nat (requests_issued (printed r1))
     + Z.of_nat (requests_issued (printed r2)) <= 2.
Proof.
  cbv zeta. split; [reflexivity|]. split; [reflexivity|].
  split; [reflexivity|]. split; [reflexivity|].
  exact (proj2 (limit_counts_earlier_runs Iso.parse 2
                  [served (on 2024 6 14) ""
                     (page [user_result
                              {| p_id := "5f3a91c2aa"; p_name := "Ann";
                                 p_bio := ""; p_birth_date := "";
                                 p_photos := [] |}])]
                  [served (on 2024 6 14) ""
                     (page [user_result
                              {| p_id := "60b7d1e4bb"; p_name := "Bea";
                                 p_bio := ""; p_birth_date := "";
                                 p_photos := [] |}]);
                   served (on 2024 6 14) ""
                     (page [user_result
                              {| p_id := "5f3a91c2aa"; p_name := "Ann";
                                 p_bio := ""; p_birth_date := "";
                                 p_photos := [] |}])]
                  (TinderScraper "tinder_users_20240614_120000.csv")
                  "tinder_users_20240614_120000.csv" eq_refl)).
Defined.

(** ** A page of new users *)

Lemma extract_loop_profiles parse today ps :
  forall collected found,
    Forall (fun p => p_id p <> "") ps ->
    NoDup (map p_id ps) ->
    (forall p, In p ps ->
               existsb (fun v => equal (user_id v) (VStr (p_id p))) collected
               = false) ->
    extract_loop parse today (map user_result ps) collected found
    = (collected ++ map (row parse today) ps,
       Ok (found + List.length ps)%nat).
Proof.
  induction ps as [|p ps IH]; intros collected found Hne Hnd Hnew.
  - simpl. rewrite app_nil_r, Nat.add_0_r. reflexivity.
  - cbn [map extract_loop].
    inversion Hne as [|? ? Hp Hps]; subst.
    inversion Hnd as [|? ? Hnotin Hnd']; subst.
    rewrite (extract_user_profile parse today collected p Hp).
    rewrite (Hnew p (or_introl eq_refl)).
    rewrite IH; [| exact Hps | exact Hnd' |].
    + rewrite <- app_assoc. cbn [app List.length].
      rewrite Nat.add_succ_r. reflexivity.
    + intros q Hq. rewrite existsb_app. cbn [existsb].
      rewrite (Hnew q (or_intror Hq)), equal_row_id. cbn [orb].
      rewrite orb_false_r. apply String.eqb_neq. intros E.
      apply Hnotin. rewrite E. apply in_map. exact Hq.
Qed.

(** X19: a page of users with non-empty ids, different from each other
    and from every id collected: each gets its row, in the order of the
    page, after the rows collected before, and the number returned is
    the number of users on the page. *)
Theorem page_of_new_users parse today ps s :
  Forall (fun p => p_id p <> "") ps ->
  NoDup (map p_id ps) ->
  (forall p, In p ps ->
             existsb (fun v => equal (user_id v) (VStr (p_id p)))
               (users_collected s) = false) ->
  extract_users_from_response parse today (page (map user_result ps)) s
  = ({| users_collected := users_collected s ++ map (row parse today) ps;
        request_count := request_count s;
        csv_filename := csv_filename s;
        csv_rows := csv_rows s |},
     Ok (List.length ps)).
Proof.
  intros Hne Hnd Hnew.
  rewrite extract_users_page.
  rewrite (extract_loop_profiles parse today ps _ 0%nat Hne Hnd Hnew).
  reflexivity.
Qed.

Lemma page_of_new_users_witness :
  let pa := {| p_id := "5f3a91c2aa"; p_name := "Ann"; p_bio := "";
               p_birth_date := "2000-06-15"; p_photos := ["a"; ""; "b"] |} in
  let pb := {| p_id := "60b7d1e4bb"; p_name := "Bea"; p_bio := "";
               p_birth_date := ""; p_photos := [] |} in
  let s := TinderScraper "tinder_users_20240614_120000.csv" in
  NoDup (map p_id [pa; pb])
  /\ extract_users_from_response Iso.parse (on 2024 6 14)
       (page (map user_result [pa; pb])) s
     = ({| users_collected :=
             [row Iso.parse (on 2024 6 14) pa; row Iso.parse (on 2024 6 14) pb];
           request_count := 0;
           csv_filename := "tinder_users_20240614_120000.csv";
           csv_rows := [] |},
        Ok 2%nat).
Proof.
  cbv zeta.
  assert (N : NoDup (map p_id
                       [{| p_id := "5f3a91c2aa"; p_name := "Ann"; p_bio := "";
                           p_birth_date := "2000-06-15";
                           p_photos := ["a"; ""; "b"] |};
                        {| p_id := "60b7d1e4bb"; p_name := "Bea"; p_bio := "";
                           p_birth_date := ""; p_photos := [] |}])).
  { cbn [map p_id]. constructor.
    - intros [H|[]]. discriminate.
    - constructor; [intros [] | constructor]. }
  split; [exact N|].
  apply (page_of_new_users Iso.parse (on 2024 6 14)
           [{| p_id := "5f3a91c2aa"; p_name := "Ann"; p_bio := "";
               p_birth_date := "2000-06-15"; p_photos := ["a"; ""; "b"] |};
            {| p_id := "60b7d1e4bb"; p_name := "Bea"; p_bio := "";
               p_birth_date := ""; p_photos := [] |}]
           (TinderScraper "tinder_users_20240614_120000.csv")).
  - repeat constructor; discriminate.
  - exact N.
  - intros p _. reflexivity.
Defined.

(** ** The preview, whatever the rows *)

Lemma sample_lines users :
  forall i,
    (List.length (filter is_sample (fst (sample i users)))
     <= List.length users)%nat.
Proof.
  induction users as [|u users IH]; intros i; simpl; [lia|].
  destruct (slice_to 8 (user_id u)); [|simpl; lia].
  specialize (IH (S i)).
  destruct (sample (S i) users) as [out e]. simpl in *. lia.
Qed.

(** X20: the summary never shows more than five rows, whatever the rows
    are and whether or not the preview raises; the line of the further
    rows comes only with more than five rows and gives their number. *)
Theorem preview_capped s :
  (List.length (filter is_sample (fst (summary s))) <= 5)%nat
  /\ forall n,
      In (MsgMore n) (fst (summary s)) ->
      (5 < List.length (users_collected s))%nat
      /\ n = (List.length (users_collected s) - 5)%nat.
Proof.
  unfold summary.
  destruct (users_collected s) as [|u users] eqn:U.
  - split; [simpl; lia|]. intros n [H|[H|[H|[]]]]; discriminate.
  - pose proof (sample_lines (firstn 5 (u :: users)) 0) as L.
    pose proof (firstn_le_length 5 (u :: users)) as F.
    set (rows := u :: users) in *.
    assert (NoMore : forall i l n, ~ In (MsgMore n) (fst (sample i l))).
    { intros i l. revert i. induction l as [|v l IHl]; intros i n; simpl;
        [tauto|].
      destruct (slice_to 8 (user_id v)); [|simpl; tauto].
      specialize (IHl (S i) n). destruct (sample (S i) l) as [out e].
      simpl in *. intros [H|H]; [discriminate | tauto]. }
    specialize (NoMore 0%nat (firstn 5 rows)).
    destruct (sample 0 (firstn 5 rows)) as [out [e|]]; cbn [fst] in *.
    + split.
      * simpl. lia.
      * intros n [H|[H|[H|[H|H]]]]; try discriminate.
        exfalso. exact (NoMore n H).
    + split.
      * cbn [app filter is_sample List.length].
        rewrite filter_app, length_app.
        destruct (5 <? List.length rows)%nat; simpl; lia.
      * intros n [H|[H|[H|[H|H]]]]; try discriminate.
        apply in_app_or in H. destruct H as [H|H];
          [exfalso; exact (NoMore n H)|].
        destruct (5 <? List.length rows)%nat eqn:E; [|contradiction].
        apply Nat.ltb_lt in E. destruct H as [H|[]].
        inversion H. split; [exact E | reflexivity].
Qed.

Lemma preview_capped_witness :
  let u := {| user_id := VStr "5f3a91c2aa01"; name := VStr "Ann";
              age := VInt 23; bio := VStr ""; birth_date := VStr "2000-06-15";
              photo_count := 1; photo_urls := "a" |} in
  let s := {| users_collected := [u; u; u; u; u; u; u];
              request_count := 3;
              csv_filename := "tinder_users_20240614_120000.csv";
              csv_rows := [] |} in
  In (MsgMore 2) (fst (summary s))
  /\ (5 < List.length (users_collected s))%nat
  /\ 2%nat = (List.length (users_collected s) - 5)%nat.
Proof.
  cbv zeta.
  assert (I : In (MsgMore 2)
                (fst (summary
                        {| users_collected :=
                             repeat {| user_id := VStr "5f3a91c2aa01";
                                       name := VStr "Ann"; age := VInt 23;
                                       bio := VStr "";
                                       birth_date := VStr "2000-06-15";
                                       photo_count := 1; photo_urls := "a" |}
                               7;
                           request_count := 3;
                           csv_filename := "tinder_users_20240614_120000.csv";
                           csv_rows := [] |}))).
  { vm_compute. do 9 right. left. reflexivity. }
  split; [exact I|].
  exact (proj2 (preview_capped _) 2%nat I).
Defined.

(** ** Each user once, in the collection and in the file *)

Lemma equal_has_id v s : equal (user_id v) (VStr s) = has_id s v.
Proof.
  unfold has_id. destruct (user_id v); reflexivity.
Qed.

Lemma has_id_present s rows :
  existsb (fun v => equal (user_id v) (VStr s)) rows = true ->
  (1 <= List.length (filter (has_id s) rows))%nat.
Proof.
  induction rows as [|v rows IH]; simpl; [discriminate|].
  rewrite equal_has_id. destruct (has_id s v); simpl; [lia|exact IH].
Qed.

Lemma existsb_incl {A : Type} (f : A -> bool) l l' :
  incl l l' -> existsb f l = true -> existsb f l' = true.
Proof.
  intros I H. apply existsb_exists in H. destruct H as [x [Hx Hf]].
  apply existsb_exists. exists x. auto.
Qed.

(** A page of typed users is extracted without an exception, and leaves
    a row for the id of each of them. *)
Lemma extract_loop_typed parse today ps :
  Forall (fun p => p_id p <> "") ps ->
  forall collected found,
  exists final n,
    extract_loop parse today (map user_result ps) collected found
    = (final, Ok n)
    /\ incl collected final
    /\ forall p, In p ps ->
                 existsb (fun v => equal (user_id v) (VStr (p_id p))) final
                 = true.
Proof.
  induction 1 as [|p ps Hp _ IH]; intros collected found.
  - exists collected, found. split; [reflexivity|].
    split; [apply incl_refl | intros p []].
  - cbn [map extract_loop].
    rewrite (extract_user_profile parse today collected p Hp).
    destruct (existsb (fun v => equal (user_id v) (VStr (p_id p))) collected)
      eqn:E.
    + destruct (IH collected found) as [final [n [H1 [H2 H3]]]].
      exists final, n. split; [exact H1|]. split; [exact H2|].
      intros q [<-|Hq]; [|apply H3; exact Hq].
      apply (existsb_incl _ collected final H2 E).
    + destruct (IH (collected ++ [row parse today p]) (S found))
        as [final [n [H1 [H2 H3]]]].
      exists final, n. split; [exact H1|]. split.
      * intros x Hx. apply H2. apply in_or_app. left. exact Hx.
      * intros q [<-|Hq]; [|apply H3; exact Hq].
        apply (existsb_incl _ (collected ++ [row parse today p]) final H2).
        rewrite existsb_app. cbn [existsb]. rewrite equal_row_id.
        rewrite String.eqb_refl, orb_true_r. reflexivity.
Qed.

(** The same user twice on a page that is followed by a refusal. *)
Lemma run_same_user_one_page parse today t' text text' p code j i file env :
  p_id p <> "" -> code <> 200 ->
  scraping_loop parse None
    (served today text (page [user_result p; user_result p])
     :: {| net_event := Reply code text' j; clock := t';
           sleep_interrupted := i |} :: env)
    (TinderScraper file)
  = {| state := {| users_collected := [row parse today p];
                   request_count := 2;
                   csv_filename := file;
                   csv_rows := [row parse today p] |};
       printed := [MsgRequest 1; MsgFound 1 1; MsgRequest 2;
                   MsgNon200 (Some code) (VStr text')];
       how := Exit STOP_NON_200 |}.
Proof.
  intros Hp Hc.
  rewrite (scraping_loop_extract parse None _ _ _ []
             (page [user_result p; user_result p]));
    [|reflexivity|reflexivity].
  cbv zeta. cbn [served clock sleep_interrupted].
  rewrite extract_users_page.
  cbn [TinderScraper with_request_count users_collected extract_loop].
  rewrite (extract_user_profile parse today [] p Hp). cbn [existsb app].
  rewrite (extract_user_profile parse today _ p Hp). cbn [existsb].
  rewrite equal_row_id, String.eqb_refl.
  cbn [orb fst snd Nat.ltb Nat.leb users_collected List.length skipn
       save_users_to_csv request_count csv_filename csv_rows app].
  rewrite scraping_loop_status; [|reflexivity|exact Hc].
  reflexivity.
Qed.

(** The same user on two pages in a row. *)
Lemma run_same_user_two_pages parse t1 t2 x1 x2 p env file :
  p_id p <> "" ->
  scraping_loop parse None
    (served t1 x1 (page [user_result p])
     :: served t2 x2 (page [user_result p]) :: env)
    (TinderScraper file)
  = {| state := {| users_collected := [row parse t1 p];
                   request_count := 2;
                   csv_filename := file;
                   csv_rows := [row parse t1 p] |};
       printed := [MsgRequest 1; MsgFound 1 1; MsgRequest 2; MsgNoNewUsers];
       how := Exit STOP_EMPTY_PAGE |}.
Proof.
  intros Hp.
  rewrite (scraping_loop_extract parse None _ _ _ []
             (page [user_result p])); [|reflexivity|reflexivity].
  cbv zeta. cbn [served clock sleep_interrupted].
  rewrite extract_users_page.
  cbn [TinderScraper with_request_count users_collected extract_loop].
  rewrite (extract_user_profile parse t1 [] p Hp).
  cbn [existsb app fst snd Nat.ltb Nat.leb users_collected List.length skipn
       save_users_to_csv request_count csv_filename csv_rows].
  rewrite (scraping_loop_extract parse None _ _ _ []
             (page [user_result p])); [|reflexivity|reflexivity].
  cbv zeta. cbn [clock sleep_interrupted].
  rewrite extract_users_page.
  cbn [with_request_count users_collected extract_loop].
  rewrite (extract_user_profile parse t2 _ p Hp). cbn [existsb].
  rewrite equal_row_id, String.eqb_refl.
  cbn [orb fst snd Nat.ltb Nat.leb]. reflexivity.
Qed.

(** C1: in a run of a new scraper no two rows of the collection, and no
    two rows of the file, have equal ids, so a string occurs as [user_id]
    of at most one row; an entry whose [_id] equals that of a collected
    row is skipped, and a user object that was stored is skipped whenever
    it arrives again.  A run that returns has written every collected row
    to the file; every user of a page has exactly one row in the
    collection once the page is extracted; and the same user object
    twice, on one page or on two, gives exactly one row in the collection
    and exactly one row in the file. *)
Theorem user_stored_once :
  (forall parse max_requests env file,
      let r := run_continuous_scraping parse max_requests env
                 (TinderScraper file) in
      distinct_ids (users_collected (state r))
      /\ distinct_ids (csv_rows (state r))
      /\ forall s,
          (List.length (filter (has_id s) (users_collected (state r))) <= 1
           /\ List.length (filter (has_id s) (csv_rows (state r))) <= 1)%nat)
  /\ (forall parse today collected e d uid,
         lookup "user" e = Some (VDict d) ->
         lookup "_id" d = Some uid ->
         existsb (fun v => equal (user_id v) uid) collected = true ->
         extract_user parse today collected (VDict e) = Ok None)
  /\ (forall parse today today' collected collected' result u s,
         extract_user parse today collected result = Ok (Some u) ->
         user_id u = VStr s ->
         In u collected' ->
         extract_user parse today' collected' result = Ok None)
  /\ (forall parse today collected result u s,
         extract_user parse today collected result = Ok (Some u) ->
         user_id u = VStr s ->
         extract_loop parse today [result; result] collected 0
         = (collected ++ [u], Ok 1%nat))
  /\ (forall parse max_requests env file x,
         let r := run_continuous_scraping parse max_requests env
                    (TinderScraper file) in
         how r = Exit x ->
         csv_rows (state r) = users_collected (state r))
  /\ (forall parse today ps s,
         Forall (fun p => p_id p <> "") ps ->
         distinct_ids (users_collected s) ->
         let out := extract_users_from_response parse today
                      (page (map user_result ps)) s in
         (exists n, snd out = Ok n)
         /\ forall p,
             In p ps ->
             List.length (filter (has_id (p_id p)) (users_collected (fst out)))
             = 1%nat)
  /\ (forall parse today t' text text' p code j i file env,
         p_id p <> "" -> code <> 200 ->
         let r := run_continuous_scraping parse None
                    (served today text (page [user_result p; user_result p])
                     :: {| net_event := Reply code text' j; clock := t';
                           sleep_interrupted := i |} :: env)
                    (TinderScraper file) in
         how r = Exit STOP_NON_200
         /\ users_collected (state r) = [row parse today p]
         /\ csv_rows (state r) = [row parse today p])
  /\ (forall parse t1 t2 x1 x2 p env file,
         p_id p <> "" ->
         let r := run_continuous_scraping parse None
                    (served t1 x1 (page [user_result p])
                     :: served t2 x2 (page [user_result p]) :: env)
                    (TinderScraper file) in
         how r = Exit STOP_EMPTY_PAGE
         /\ users_collected (state r) = [row parse t1 p]
         /\ csv_rows (state r) = [row parse t1 p]).
Proof.
  split; [|split; [|split; [|split; [|split; [|split; [|split]]]]]].
  - intros parse max_requests env file r.
    destruct (scraping_loop_rows parse max_requests env (TinderScraper file))
      as [Hd [pending Hp]]; [reflexivity | constructor |].
    unfold r. rewrite state_run.
    assert (Hc : distinct_ids
                   (csv_rows (state (scraping_loop parse max_requests env
                                       (TinderScraper file))))).
    { apply distinct_ids_prefix with (rest := pending).
      rewrite <- Hp. exact Hd. }
    split; [exact Hd|]. split; [exact Hc|].
    intros s. split; apply distinct_ids_once; assumption.
  - intros parse today collected e d uid Hus Hid Hex.
    unfold extract_user. rewrite get_dict. cbn [Py.bind].
    destruct (negb (equal (default VNone (lookup "type" e)) (VStr "user")));
      [reflexivity|].
    rewrite get_dict, Hus. cbn [default Py.bind].
    rewrite get_dict, Hid. cbn [default Py.bind].
    rewrite Hex, orb_true_r. reflexivity.
  - exact extract_user_stored.
  - intros parse today collected result u s E Hs.
    simpl. rewrite E.
    rewrite (extract_user_stored parse today today collected (collected ++ [u])
               result u s E Hs).
    + reflexivity.
    + apply in_or_app. right. left. reflexivity.
  - intros parse max_requests env file x r Hx. unfold r in *.
    rewrite how_run in Hx. rewrite state_run.
    destruct (scraping_loop_appends parse max_requests env (TinderScraper file))
      as [w [p [H1 [H2 [_ [_ H5]]]]]].
    destruct p as [|u p].
    + rewrite H1, H2, app_nil_r. reflexivity.
    + destruct H5 as [e [He Hq]]; [discriminate|].
      rewrite He in Hx.
      destruct (snd (summary _)); [discriminate|].
      destruct e; try discriminate. contradiction.
  - intros parse today ps s Hne Hd out. unfold out.
    rewrite extract_users_page. cbn [fst snd users_collected].
    destruct (extract_loop_typed parse today ps Hne (users_collected s) 0%nat)
      as [final [n [H1 [_ H3]]]].
    destruct (extract_loop_appends parse today (map user_result ps)
                (users_collected s) 0) as [added [A1 [_ A3]]].
    rewrite H1 in *. cbn [fst snd] in *.
    split; [exists n; reflexivity|].
    intros p Hp.
    assert (D : distinct_ids final) by (rewrite A1; apply A3; exact Hd).
    pose proof (distinct_ids_once final (p_id p) D) as U.
    pose proof (has_id_present (p_id p) final (H3 p Hp)) as L.
    lia.
  - intros parse today t' text text' p code j i file env Hp Hc r.
    unfold r, run_continuous_scraping.
    rewrite (run_same_user_one_page parse today t' text text' p code j i file
               env Hp Hc).
    repeat split; reflexivity.
  - intros parse t1 t2 x1 x2 p env file Hp r.
    unfold r, run_continuous_scraping.
    rewrite (run_same_user_two_pages parse t1 t2 x1 x2 p env file Hp).
    repeat split; reflexivity.
Qed.

Lemma user_stored_once_witness :
  let p := {| p_id := "5f3a91c2aa"; p_name := "Ann"; p_bio := "";
              p_birth_date := "2000-06-15"; p_photos := ["a"] |} in
  let today := on 2024 6 14 in
  let r := run_continuous_scraping Iso.parse None
             [served today "" (page [user_result p; user_result p]);
              {| net_event := Reply 429 "Too Many Requests" None;
                 clock := today; sleep_interrupted := false |}]
             (TinderScraper "tinder_users_20240614_120000.csv") in
  p_id p <> ""
  /\ 429 <> 200
  /\ how r = Exit STOP_NON_200
  /\ users_collected (state r) = [row Iso.parse today p]
  /\ csv_rows (state r) = [row Iso.parse today p]
  /\ List.length (filter (has_id "5f3a91c2aa") (csv_rows (state r))) = 1%nat.
Proof.
  cbv zeta. split; [discriminate|]. split; [discriminate|].
  destruct (proj1 (proj2 (proj2 (proj2 (proj2 (proj2 (proj2
              user_stored_once))))))
              Iso.parse (on 2024 6 14) (on 2024 6 14) "" "Too Many Requests"
              {| p_id := "5f3a91c2aa"; p_name := "Ann"; p_bio := "";
                 p_birth_date := "2000-06-15"; p_photos := ["a"] |}
              429 None false "tinder_users_20240614_120000.csv" []
              ltac:(discriminate) ltac:(discriminate))
    as [H1 [H2 H3]].
  split; [exact H1|]. split; [exact H2|]. split; [exact H3|].
  rewrite H3. reflexivity.
Defined.

(** ** A page whose ['data'] is no container *)

(** C7: on the page [{"data": null}], which lacks [data.results], the
    test ['results' not in data['data']] raises [TypeError]; nothing
    catches it, so the run ends on the exception after the summary
    instead of stopping as an empty page.  The same holds with a number
    or a boolean under ['data']. *)
Theorem page_with_scalar_data parse today text i env file v :
  v = VNone \/ (exists b, v = VBool b) \/ (exists z, v = VInt z) ->
  let data := VDict [("data", v)] in
  let r := run_continuous_scraping parse None
             ({| net_event := Reply 200 text (Some data); clock := today;
                 sleep_interrupted := i |} :: env)
             (TinderScraper file) in
  (forall s, extract_users_from_response parse today data s
             = (s, Raise TypeError))
  /\ how r = Raised TypeError
  /\ how r <> Exit STOP_EMPTY_PAGE
  /\ printed r = [MsgRequest 1; MsgTotalRequests 1; MsgTotalUsers 0;
                  MsgCsvFile file].
Proof.
  intros Hv data r.
  assert (E : forall s, extract_users_from_response parse today data s
                        = (s, Raise TypeError)).
  { intros s. unfold data.
    destruct Hv as [-> | [[b ->] | [z ->]]]; reflexivity. }
  assert (L : scraping_loop parse None
                ({| net_event := Reply 200 text (Some data); clock := today;
                    sleep_interrupted := i |} :: env) (TinderScraper file)
              = {| state := with_request_count 1 (TinderScraper file);
                   printed := [MsgRequest 1];
                   how := Raised TypeError |}).
  { rewrite (scraping_loop_extract parse None _ env _ [] data);
      [|reflexivity|reflexivity].
    cbv zeta. cbn [clock]. rewrite E. reflexivity. }
  split; [exact E|].
  unfold r, run_continuous_scraping. rewrite L.
  split; [reflexivity|]. split; [discriminate | reflexivity].
Qed.

Lemma page_with_scalar_data_witness :
  let data := VDict [("data", VNone)] in
  let r := run_continuous_scraping Iso.parse None
             [{| net_event := Reply 200 "" (Some data);
                 clock := on 2024 6 14; sleep_interrupted := false |}]
             (TinderScraper "tinder_users_20240614_120000.csv") in
  how r = Raised TypeError
  /\ printed r = [MsgRequest 1; MsgTotalRequests 1; MsgTotalUsers 0;
                  MsgCsvFile "tinder_users_20240614_120000.csv"].
Proof.
  cbv zeta.
  destruct (page_with_scalar_data Iso.parse (on 2024 6 14) ""
              false [] "tinder_users_20240614_120000.csv" VNone
              (or_introl eq_refl)) as [_ [H1 [_ H2]]].
  split; [exact H1 | exact H2].
Defined.

(** ** The limit, checked before each request *)

(** The loop is not waiting for a reply with the counter at the limit. *)
Lemma scraping_loop_running parse N env :
  N <> 0 ->
  forall s,
    how (scraping_loop parse (Some N) env s) = Running ->
    request_count (state (scraping_loop parse (Some N) env s)) < N.
Proof.
  intros HN.
  induction env as [|c env IH]; intros s; cbn [scraping_loop];
    rewrite (while_condition_limit N s HN);
    destruct (request_count s <? N) eqn:W;
    try (cbn [how]; discriminate).
  - apply Z.ltb_lt in W. cbn [state how]. intros _. exact W.
  - destruct (make_recs_request (net_event c)) as [log [[status body]|e]];
      [|cbn [how]; discriminate].
    destruct (not_200 status); [cbn [how]; discriminate|].
    destruct (extract_users_from_response parse (clock c) body
                (with_request_count (request_count s + 1) s))
      as [s2 [n|e]]; [|cbn [how]; discriminate].
    destruct (0 <? n)%nat; [|cbn [how]; discriminate].
    destruct (sleep_interrupted c); [cbn [how]; discriminate|].
    cbn [how state after]. apply IH.
Qed.

(** C8, as amended: with a limit [N] other than 0 the counter is checked
    against [N] before each request.  A run never issues more requests
    than what the counter leaves of [N], so at most [N] (none when [N] is
    negative); with the counter at [N] the loop stops at once in
    [STOP_REQUEST_LIMIT], without a request, and so it does after a pass
    that brings the counter to [N] and goes on; the loop never waits for
    a reply with the counter at [N], leaves through the limit only with
    the counter at [N] or beyond, and ends when the environment has
    enough passes. *)
Theorem request_limit parse N env s :
  N <> 0 ->
  let l := scraping_loop parse (Some N) env s in
  let r := run_continuous_scraping parse (Some N) env s in
  Z.of_nat (requests_issued (printed r)) <= Z.max 0 (N - request_count s)
  /\ (0 <= request_count s ->
      Z.of_nat (requests_issued (printed r)) <= Z.max 0 N)
  /\ request_count (state r)
     = request_count s + Z.of_nat (requests_issued (printed r))
  /\ (N <= request_count s ->
      l = {| state := s; printed := []; how := Exit STOP_REQUEST_LIMIT |}
      /\ requests_issued (printed r) = 0%nat
      /\ (snd (summary s) = None -> how r = Exit STOP_REQUEST_LIMIT))
  /\ (forall c env' log body,
         env = c :: env' ->
         request_count s + 1 = N ->
         make_recs_request (net_event c) = (log, Ok (Some 200, body)) ->
         (exists n,
             snd (extract_users_from_response parse (clock c) body
                    (with_request_count (request_count s + 1) s)) = Ok n
             /\ (0 < n)%nat) ->
         sleep_interrupted c = false ->
         how l = Exit STOP_REQUEST_LIMIT
         /\ requests_issued (printed l) = 1%nat)
  /\ (how l = Running -> request_count (state l) < N)
  /\ (how l = Exit STOP_REQUEST_LIMIT -> N <= request_count (state l))
  /\ (N - request_count s <= Z.of_nat (List.length env) ->
      how l <> Running /\ how r <> Running).
Proof.
  intros HN l r.
  destruct (scraping_loop_limit parse N env HN s) as [H1 [H2 H3]].
  pose proof (scraping_loop_counts parse (Some N) env s) as Hc.
  assert (Stop : forall env0 s0,
             N <= request_count s0 ->
             scraping_loop parse (Some N) env0 s0
             = {| state := s0; printed := [];
                  how := Exit STOP_REQUEST_LIMIT |}).
  { intros env0 s0 Hs0.
    assert (W : while_condition (Some N) s0 = false).
    { rewrite (while_condition_limit N s0 HN). apply Z.ltb_ge. exact Hs0. }
    destruct env0; cbn [scraping_loop]; rewrite W; reflexivity. }
  unfold r, l. rewrite requests_issued_run, state_run.
  split; [lia|]. split; [lia|]. split; [exact Hc|].
  split; [|split; [|split; [|split]]].
  - intros Hs. rewrite how_run, (Stop env s Hs). cbn [printed how state].
    split; [reflexivity|]. split; [reflexivity|].
    intros Hsum. rewrite Hsum. reflexivity.
  - intros c env' log body -> HsN Hm [n [Hn Hpos]] Hsl.
    assert (W : while_condition (Some N) s = true).
    { rewrite (while_condition_limit N s HN). apply Z.ltb_lt. lia. }
    pose proof (make_recs_request_log (net_event c)) as Hlog.
    rewrite Hm in Hlog. cbn [fst] in Hlog.
    rewrite (scraping_loop_extract parse (Some N) c env' s log body W Hm).
    cbv zeta. rewrite Hn, Hsl.
    apply Nat.ltb_lt in Hpos. rewrite Hpos.
    set (s3 := save_users_to_csv _ _).
    assert (Hs3 : request_count s3 = N).
    { destruct (extract_users_appends parse (clock c) body
                  (with_request_count (request_count s + 1) s))
        as [added [_ [Hrc _]]].
      unfold s3, save_users_to_csv. destruct (skipn _ _);
        cbn [request_count]; rewrite Hrc; exact HsN. }
    rewrite (Stop env' s3); [|lia].
    cbn [after how printed]. split; [reflexivity|].
    rewrite app_nil_r. count_requests.
  - apply scraping_loop_running. exact HN.
  - exact H2.
  - intros L. split; [apply H3; exact L|].
    rewrite how_run. specialize (H3 L).
    destruct (how (scraping_loop parse (Some N) env s)) as [x|e|];
      [| |exfalso; apply H3; reflexivity].
    + destruct (snd (summary _)); discriminate.
    + destruct (snd (summary _)); [discriminate|]. destruct e; discriminate.
Qed.

Lemma request_limit_witness :
  let pa := {| p_id := "5f3a91c2aa"; p_name := "Ann"; p_bio := "";
               p_birth_date := "2000-06-15"; p_photos := ["a"] |} in
  let pb := {| p_id := "60b7d1e4bb"; p_name := "Bea"; p_bio := "";
               p_birth_date := ""; p_photos := [] |} in
  let pc := {| p_id := "61c8e2f5cc"; p_name := "Cleo"; p_bio := "";
               p_birth_date := ""; p_photos := [] |} in
  let env := [served (on 2024 6 14) "" (page [user_result pa]);
              served (on 2024 6 14) "" (page [user_result pb]);
              served (on 2024 6 14) "" (page [user_result pc])] in
  let r := run_continuous_scraping Iso.parse (Some 2) env
             (TinderScraper "tinder_users_20240614_120000.csv") in
  2 <> 0
  /\ how r = Exit STOP_REQUEST_LIMIT
  /\ requests_issued (printed r) = 2%nat
  /\ List.length (csv_rows (state r)) = 2%nat
  /\ Z.of_nat (requests_issued (printed r)) <= Z.max 0 2
  /\ request_count (state r) = 0 + Z.of_nat (requests_issued (printed r)).
Proof.
  cbv zeta. split; [discriminate|]. split; [reflexivity|].
  split; [reflexivity|]. split; [reflexivity|].
  pose proof
    (request_limit Iso.parse 2
       [served (on 2024 6 14) ""
          (page [user_result
                   {| p_id := "5f3a91c2aa"; p_name := "Ann"; p_bio := "";
                      p_birth_date := "2000-06-15"; p_photos := ["a"] |}]);
        served (on 2024 6 14) ""
          (page [user_result
                   {| p_id := "60b7d1e4bb"; p_name := "Bea"; p_bio := "";
                      p_birth_date := ""; p_photos := [] |}]);
        served (on 2024 6 14) ""
          (page [user_result
                   {| p_id := "61c8e2f5cc"; p_name := "Cleo"; p_bio := "";
                      p_birth_date := ""; p_photos := [] |}])]
       (TinderScraper "tinder_users_20240614_120000.csv")
       ltac:(discriminate))
    as [_ [H1 [H2 _]]].
  split; [apply H1; reflexivity | exact H2].
Defined.

(** ** The bio, line by line of the program *)

Lemma str_replace_newlines b :
  str_replace "013" " " (str_replace "010" " " b) = blank_newlines b.
Proof.
  induction b as [|c b IH]; [reflexivity|].
  cbn [str_replace blank_newlines].
  destruct (Ascii.eqb c "010") eqn:E1.
  - cbn [orb append str_replace]. rewrite IH. reflexivity.
  - cbn [orb str_replace].
    destruct (Ascii.eqb c "013") eqn:E2; cbn [append]; rewrite IH; reflexivity.
Qed.

Lemma blank_newlines_length b :
  String.length (blank_newlines b) = String.length b.
Proof.
  induction b as [|c b IH]; [reflexivity|].
  cbn [blank_newlines String.length]. rewrite IH. reflexivity.
Qed.

(** X4: the [bio] of every row of a run of a new scraper is a string
    with no line feed and no carriage return in it.  A user entry with
    the string [b] as [bio] (or with none) is extracted with the [bio]
    [b] in which every line feed and every carriage return has become
    one blank, a string as long as [b]; the extraction of a page with the
    bio ["line1\nline2\r\n"] stores ["line1 line2  "]. *)
Theorem rows_bio_one_line :
  (forall parse max_requests env file,
      Forall (fun u => exists b,
                  bio u = VStr b /\ ~ occurs "010" b /\ ~ occurs "013" b)
        (users_collected
           (state (run_continuous_scraping parse max_requests env
                     (TinderScraper file)))))
  /\ (forall parse today collected e d uid photos urls b,
         lookup "type" e = Some (VStr "user") ->
         lookup "user" e = Some (VDict d) ->
         lookup "_id" d = Some uid ->
         truthy uid = true ->
         existsb (fun v => equal (user_id v) uid) collected = false ->
         lookup "photos" d = Some (VList photos) ->
         Forall2 photo_url photos urls ->
         bio_text d b ->
         exists u,
           extract_user parse today collected (VDict e) = Ok (Some u)
           /\ bio u = VStr (blank_newlines b)
           /\ String.length (blank_newlines b) = String.length b)
  /\ (forall parse today file,
         let b := ("line1" ++ String "010" "line2"
                   ++ String "013" (String "010" ""))%string in
         let data :=
           page [VDict [("type", VStr "user");
                        ("user", VDict [("_id", VStr "u1");
                                        ("bio", VStr b)])]] in
         map bio
           (users_collected
              (fst (extract_users_from_response parse today data
                      (TinderScraper file))))
         = [VStr "line1 line2  "]).
Proof.
  split; [|split].
  - intros parse max_requests env file.
    destruct (run_rows_produced parse max_requests env file) as [H1 _].
    eapply Forall_impl; [|exact H1].
    intros u Hu. destruct (produced_fields parse u Hu) as [_ [_ [b Hb]]].
    eexists. split; [exact Hb|]. split.
    + apply str_replace_keeps_out; [discriminate|].
      apply str_replace_removes. discriminate.
    + apply str_replace_removes. discriminate.
  - intros parse today collected e d uid photos urls b
           Hty Hus Hid Htr Hnew Hph Hurls Hbio.
    unfold extract_user.
    rewrite get_dict, Hty. cbn [default Py.bind].
    replace (negb (equal (VStr "user") (VStr "user"))) with false
      by reflexivity.
    rewrite get_dict, Hus. cbn [default Py.bind].
    rewrite get_dict, Hid. cbn [default Py.bind].
    rewrite Htr, Hnew. cbn [negb orb].
    rewrite (user_data_of_typed parse today d uid photos urls b Hph Hurls Hbio).
    cbn [Py.bind]. eexists. split; [reflexivity|]. cbn [bio].
    rewrite str_replace_newlines. split; [reflexivity|].
    apply blank_newlines_length.
  - intros parse today file. reflexivity.
Qed.

Lemma rows_bio_one_line_witness :
  let d := [("_id", VStr "u1"); ("bio", VStr "a b"); ("photos", VList [])] in
  let e := [("type", VStr "user"); ("user", VDict d)] in
  bio_text d "a b"
  /\ exists u,
      extract_user Iso.parse (on 2024 6 14) [] (VDict e) = Ok (Some u)
      /\ bio u = VStr (blank_newlines "a b").
Proof.
  cbv zeta.
  assert (B : bio_text [("_id", VStr "u1"); ("bio", VStr "a b");
                        ("photos", VList [])] "a b").
  { apply bio_string. reflexivity. }
  split; [exact B|].
  destruct (proj1 (proj2 rows_bio_one_line) Iso.parse (on 2024 6 14) []
              [("type", VStr "user");
               ("user", VDict [("_id", VStr "u1"); ("bio", VStr "a b");
                               ("photos", VList [])])]
              [("_id", VStr "u1"); ("bio", VStr "a b"); ("photos", VList [])]
              (VStr "u1") [] [] "a b"
              eq_refl eq_refl eq_refl eq_refl eq_refl eq_refl
              (Forall2_nil _) B) as [u [H1 [H2 _]]].
  exists u. split; [exact H1 | exact H2].
Defined.

(** ** The age, on the day of the pass *)







(** ** The gender setting *)

(** X18: [update_gender_interest] posts for the codes 0 and 1, and for
    nothing else: an integer that is neither gets the warning and no
    request.  For 0 and 1 the body is [{"interested_in_genders": [code]}]
    and the call returns whatever the reply is, and also when the request
    fails in transport; after the line that announces the update it
    prints one line on status 200, two lines (the status, then the text
    of the response) on another status, and one line on a transport
    failure. *)
Theorem gender_code_checked code p :
  (posted (update_gender_interest code p) <> None
   <-> equal (VInt 0) code = true \/ equal (VInt 1) code = true)
  /\ (posted (update_gender_interest code p) <> None ->
      posted (update_gender_interest code p)
      = Some (VDict [("interested_in_genders", VList [code])])
      /\ (p <> PostInterrupt ->
          update_end (update_gender_interest code p) = Ok tt))
  /\ (forall z,
         z <> 0 -> z <> 1 ->
         update_gender_interest (VInt z) p
         = {| posted := None;
              update_log := [MsgInvalidGender (VInt z)];
              update_end := Ok tt |})
  /\ (forall status_code text,
         update_log (update_gender_interest (VInt 0)
                       (PostReply status_code text))
         = MsgUpdating "gender interest to Men"
           :: (if status_code =? 200
               then [MsgUpdated "gender interest to Men"]
               else [MsgUpdateFailed "gender interest to Men" status_code;
                     MsgUpdateResponse text]))
  /\ (forall e,
         update_log (update_gender_interest (VInt 1) (PostException e))
         = [MsgUpdating "gender interest to Women";
            MsgUpdateRequestFailed "gender interest to Women" e]).
Proof.
  split; [|split; [|split; [|split]]].
  - unfold update_gender_interest, gender_map.
    destruct code as [|b|z|s|l|d]; cbn [equal].
    + cbn [posted]. split; [intros H; exfalso; apply H; reflexivity|].
      intros [H|H]; discriminate.
    + destruct b; cbn [Z.b2z Z.eqb Pos.eqb]; destruct p; cbn [posted];
        split; auto; discriminate.
    + destruct (0 =? z) eqn:E0; [destruct p; cbn [posted]; split; auto;
                                  discriminate|].
      destruct (1 =? z) eqn:E1; [destruct p; cbn [posted]; split; auto;
                                  discriminate|].
      cbn [posted]. split; [intros H; exfalso; apply H; reflexivity|].
      intros [H|H]; discriminate.
    + cbn [posted]. split; [intros H; exfalso; apply H; reflexivity|].
      intros [H|H]; discriminate.
    + cbn [posted]. split; [intros H; exfalso; apply H; reflexivity|].
      intros [H|H]; discriminate.
    + cbn [posted]. split; [intros H; exfalso; apply H; reflexivity|].
      intros [H|H]; discriminate.
  - unfold update_gender_interest.
    destruct (gender_map code) as [[who|]|e]; cbn [posted];
      try (intros H; exfalso; apply H; reflexivity).
    intros _. destruct p; cbn [_make_profile_update_request posted update_end];
      (split; [reflexivity|]); intros Hp; try reflexivity.
    exfalso. apply Hp. reflexivity.
  - intros z H0 H1. unfold update_gender_interest, gender_map. cbn [equal].
    assert (E0 : (0 =? z) = false) by (apply Z.eqb_neq; lia).
    assert (E1 : (1 =? z) = false) by (apply Z.eqb_neq; lia).
    rewrite E0, E1. reflexivity.
  - intros status_code text. reflexivity.
  - intros e. reflexivity.
Qed.

Lemma gender_code_checked_witness :
  posted (update_gender_interest (VInt 1) (PostReply 403 "Forbidden")) <> None
  /\ update_gender_interest (VInt 1) (PostReply 403 "Forbidden")
     = {| posted := Some (VDict [("interested_in_genders", VList [VInt 1])]);
          update_log := [MsgUpdating "gender interest to Women";
                         MsgUpdateFailed "gender interest to Women" 403;
                         MsgUpdateResponse "Forbidden"];
          update_end := Ok tt |}
  /\ update_gender_interest (VInt 2) (PostReply 200 "{}")
     = {| posted := None;
          update_log := [MsgInvalidGender (VInt 2)];
          update_end := Ok tt |}.
Proof.
  split; [discriminate|]. split; [reflexivity|].
  apply (proj1 (proj2 (proj2 (gender_code_checked (VInt 2)
                                (PostReply 200 "{}")))));
    discriminate.
Defined.
